(** * Skribble SDK: token acquisition and caching (skribble/auth.py, skribble/config.py)

    A shallow embedding of [_InMemoryTokenCache], [TokenManager] and
    [SkribbleConfig], and the properties of the token cache, the cache key
    and the login exchange. *)

From Stdlib Require Import ZArith PrimFloat Floats.
From Stdlib.Strings Require Import Byte Ascii String.
From stdpp Require Import gmap list.

Set Warnings "-register-all".
Local Open Scope N_scope.

(** ** Python data *)

(** A Python [str] is a sequence of Unicode code points, [bytes] a sequence
    of octets. *)
Definition str := list N.
Definition bytes := list byte.

(** String literals of the source, as code points. *)
Definition pystr (s : string) : str := N_of_ascii <$> list_ascii_of_string s.

(** The values that flow through the module: what [resp.json()] yields
    (None, bool, int, float, str, list, dict) and [bytes]. *)
Inductive PyVal :=
| PNone
| PBool (b : bool)
| PInt (z : Z)
| PFloat (f : float)
| PStr (s : str)
| PBytes (b : bytes)
| PList (l : list PyVal)
| PDict (d : gmap str PyVal).

(** Truth value testing ([if x], [not x], [x or y]). *)
Definition truthy (v : PyVal) : bool :=
  match v with
  | PNone => false
  | PBool b => b
  | PInt z => negb (z =? 0)%Z
  | PFloat f => negb (PrimFloat.eqb f 0%float)
  | PStr s => match s with [] => false | _ => true end
  | PBytes b => match b with [] => false | _ => true end
  | PList l => match l with [] => false | _ => true end
  | PDict d => negb (bool_decide (d = ∅))
  end.

(** [isinstance(v, str)] *)
Definition is_str (v : PyVal) : bool :=
  match v with PStr _ => true | _ => false end.

(** [needle in hay] on [str]: substring test. *)
Fixpoint starts_with (needle hay : str) : bool :=
  match needle, hay with
  | [], _ => true
  | _ :: _, [] => false
  | a :: n', b :: h' => (a =? b) && starts_with n' h'
  end.

Fixpoint str_in (needle hay : str) : bool :=
  starts_with needle hay ||
  match hay with
  | [] => false
  | _ :: h' => str_in needle h'
  end.

(** [str.strip()]: the code points Python treats as white space. *)
Definition is_space (c : N) : bool :=
  ((0x09 <=? c) && (c <=? 0x0D)) || ((0x1C <=? c) && (c <=? 0x20))
  || (c =? 0x85) || (c =? 0xA0) || (c =? 0x1680)
  || ((0x2000 <=? c) && (c <=? 0x200A))
  || (c =? 0x2028) || (c =? 0x2029) || (c =? 0x202F) || (c =? 0x205F)
  || (c =? 0x3000).

Fixpoint lstrip (s : str) : str :=
  match s with
  | c :: r => if is_space c then lstrip r else s
  | [] => []
  end.

Definition strip (s : str) : str := rev (lstrip (rev (lstrip s))).

(** ** UTF-8 ([str.encode("utf-8")], [bytes.decode("utf-8")], strict) *)

Definition byte_of_N (n : N) : byte := default x00 (Byte.of_N n).

Definition is_surrogate (c : N) : bool := (0xD800 <=? c) && (c <=? 0xDFFF).

Definition encode_codepoint (c : N) : option bytes :=
  if c <? 0x80 then Some [byte_of_N c]
  else if c <? 0x800 then
    Some [byte_of_N (0xC0 + c / 64); byte_of_N (0x80 + c mod 64)]
  else if c <? 0x10000 then
    if is_surrogate c then None
    else Some [byte_of_N (0xE0 + c / 4096);
               byte_of_N (0x80 + (c / 64) mod 64);
               byte_of_N (0x80 + c mod 64)]
  else if c <? 0x110000 then
    Some [byte_of_N (0xF0 + c / 262144);
          byte_of_N (0x80 + (c / 4096) mod 64);
          byte_of_N (0x80 + (c / 64) mod 64);
          byte_of_N (0x80 + c mod 64)]
  else None.

(** [None] stands for UnicodeEncodeError (a lone surrogate). *)
Fixpoint encode_utf8 (s : str) : option bytes :=
  match s with
  | [] => Some []
  | c :: r =>
    match encode_codepoint c, encode_utf8 r with
    | Some b, Some bs => Some (b ++ bs)
    | _, _ => None
    end
  end.

Definition is_cont (n : N) : bool := (0x80 <=? n) && (n <=? 0xBF).

(** [None] stands for UnicodeDecodeError: a truncated or overlong sequence,
    a stray continuation octet, an encoded surrogate, a value above
    U+10FFFF. *)
Fixpoint decode_utf8 (bs : bytes) : option str :=
  match bs with
  | [] => Some []
  | b0 :: r0 =>
    let n0 := Byte.to_N b0 in
    if n0 <? 0x80 then cons n0 <$> decode_utf8 r0
    else if n0 <? 0xC2 then None
    else if n0 <? 0xE0 then
      match r0 with
      | b1 :: r1 =>
        let n1 := Byte.to_N b1 in
        if is_cont n1
        then cons ((n0 - 0xC0) * 64 + (n1 - 0x80)) <$> decode_utf8 r1
        else None
      | _ => None
      end
    else if n0 <? 0xF0 then
      match r0 with
      | b1 :: b2 :: r2 =>
        let n1 := Byte.to_N b1 in
        let n2 := Byte.to_N b2 in
        let c := (n0 - 0xE0) * 4096 + (n1 - 0x80) * 64 + (n2 - 0x80) in
        if is_cont n1 && is_cont n2 && (0x800 <=? c) && negb (is_surrogate c)
        then cons c <$> decode_utf8 r2
        else None
      | _ => None
      end
    else if n0 <? 0xF5 then
      match r0 with
      | b1 :: b2 :: b3 :: r3 =>
        let n1 := Byte.to_N b1 in
        let n2 := Byte.to_N b2 in
        let n3 := Byte.to_N b3 in
        let c := (n0 - 0xF0) * 262144 + (n1 - 0x80) * 4096
                 + (n2 - 0x80) * 64 + (n3 - 0x80) in
        if is_cont n1 && is_cont n2 && is_cont n3
           && (0x10000 <=? c) && (c <? 0x110000)
        then cons c <$> decode_utf8 r3
        else None
      | _ => None
      end
    else None
  end.

(** ** Exceptions and results *)

Inductive PyExn :=
| AttributeError (type_name attr : string)
| JSONDecodeError
| UnicodeDecodeError
| UnicodeEncodeError
| OverflowError
| BackendError (info : str)   (* what an external cache backend may raise *)
| SkribbleAuthError (message : str)
| SkribbleHTTPError (status_code : Z) (message : str)
                    (response_json : PyVal) (response_text : str).

Inductive Result (A : Type) :=
| Ok (a : A)
| Raise (e : PyExn).
Arguments Ok {A} a.
Arguments Raise {A} e.

Arguments pystr s%_string.

(** [obj.get(key)]: only a dict has the method; on a dict a missing key
    gives None. *)
Definition type_name (v : PyVal) : string :=
  match v with
  | PNone => "NoneType" | PBool _ => "bool" | PInt _ => "int"
  | PFloat _ => "float" | PStr _ => "str" | PBytes _ => "bytes"
  | PList _ => "list" | PDict _ => "dict"
  end%string.

Definition method_get (obj : PyVal) (key : str) : Result PyVal :=
  match obj with
  | PDict d => Ok (default PNone (d !! key))
  | _ => Raise (AttributeError (type_name obj) "get")
  end.

(** [x or <rest>] with [rest] evaluated only when [x] is falsy. *)
Definition or_else (x : Result PyVal) (rest : Result PyVal) : Result PyVal :=
  match x with
  | Ok v => if truthy v then Ok v else rest
  | Raise e => Raise e
  end.

(** ** config.py *)

Definition DEFAULT_API_BASE_URL := pystr "https://api.skribble.com/v2".
Definition DEFAULT_MANAGEMENT_BASE_URL := pystr "https://api.skribble.com/management".
Definition DEFAULT_API_BASE_EU_URL := pystr "https://api.skribble.de/v2".
Definition DEFAULT_MANAGEMENT_BASE_EU_URL := pystr "https://api.skribble.de/management".
Definition DEFAULT_ACCESS_TOKEN_TTL_SECONDS : Z := 20 * 60.

(** The dataclass with its seven declared fields. It is neither frozen nor
    slotted, so an instance (or a subclass) may carry further attributes:
    [instance_attrs]. [class_name] is the name of the class of the instance,
    which an AttributeError reports. *)
Record SkribbleConfig := {
  class_name : string;
  api_base_url : str;
  management_base_url : str;
  timeout : Z;
  verify_ssl : bool;
  user_agent : str;
  access_token_ttl_seconds : Z;
  redis_key_prefix : str;
  instance_attrs : list (string * PyVal)
}.

(** [SkribbleConfig()] *)
Definition SkribbleConfig_default : SkribbleConfig := {|
  class_name := "SkribbleConfig";
  api_base_url := DEFAULT_API_BASE_URL;
  management_base_url := DEFAULT_MANAGEMENT_BASE_URL;
  timeout := 30;
  verify_ssl := true;
  user_agent := pystr "skribble-sdk/0.1.4";
  access_token_ttl_seconds := DEFAULT_ACCESS_TOKEN_TTL_SECONDS;
  redis_key_prefix := pystr "skribble";
  instance_attrs := []
|}.

(** [SkribbleEUConfig()] *)
Definition SkribbleEUConfig_default : SkribbleConfig := {|
  class_name := "SkribbleEUConfig";
  api_base_url := DEFAULT_API_BASE_EU_URL;
  management_base_url := DEFAULT_MANAGEMENT_BASE_EU_URL;
  timeout := 30;
  verify_ssl := true;
  user_agent := pystr "skribble-sdk/0.1.4";
  access_token_ttl_seconds := DEFAULT_ACCESS_TOKEN_TTL_SECONDS;
  redis_key_prefix := pystr "skribble";
  instance_attrs := []
|}.

Definition declared_fields (c : SkribbleConfig) : list (string * PyVal) :=
  [ ("api_base_url", PStr (api_base_url c));
    ("management_base_url", PStr (management_base_url c));
    ("timeout", PInt (timeout c));
    ("verify_ssl", PBool (verify_ssl c));
    ("user_agent", PStr (user_agent c));
    ("access_token_ttl_seconds", PInt (access_token_ttl_seconds c));
    ("redis_key_prefix", PStr (redis_key_prefix c)) ]%string.

Fixpoint assoc (name : string) (l : list (string * PyVal)) : option PyVal :=
  match l with
  | [] => None
  | (n, v) :: r => if String.eqb n name then Some v else assoc name r
  end.

(** Attribute access [cfg.<name>]. *)
Definition getattr_config (c : SkribbleConfig) (name : string) : Result PyVal :=
  match assoc name (declared_fields c ++ instance_attrs c) with
  | Some v => Ok v
  | None => Raise (AttributeError (class_name c) name)
  end.

(** ** The cache capability and the transport *)

(** [TokenCache]: the protocol with [get] and [setex], over the state of the
    backend. *)
Class TokenCache (C : Type) := {
  tc_get : str -> C -> Result (option bytes) * C;
  tc_setex : str -> Z -> PyVal -> C -> Result unit * C
}.

(** [time.time()] is its sequence of successive readings. The fallback cache
    is its only caller, so the sequence and the number of readings taken
    live in the cache's state. Time stamps are binary64 floats, as in
    Python. The lock makes each method one atomic step, which is how the
    methods are written here. *)
Record _InMemoryTokenCache := {
  _data : gmap str (float * bytes);
  time_readings : nat -> float;
  time_calls : nat
}.

Definition time_time (c : _InMemoryTokenCache) : float * _InMemoryTokenCache :=
  (time_readings c (time_calls c),
   {| _data := _data c; time_readings := time_readings c;
      time_calls := S (time_calls c) |}).

Definition with_data (c : _InMemoryTokenCache) (d : gmap str (float * bytes)) :=
  {| _data := d; time_readings := time_readings c; time_calls := time_calls c |}.

(** The conversion of an [int] operand in [float + int]: the nearest float,
    ties to even; [None] stands for OverflowError ("int too large to convert
    to float"). *)
Definition float_of_int (z : Z) : option float :=
  match binary_normalize prec emax z 0 false with
  | S754_infinity _ => None
  | sf => Some (SF2Prim sf)
  end.

(** The login request and what [session.post] gives back. *)
Record Request := {
  req_url : str;
  req_json : PyVal;
  req_timeout : Z;
  req_verify : bool
}.

(** [headers] is keyed by the header names as the module spells them;
    [json] is what [resp.json()] gives, [None] for a body that does not
    parse (JSONDecodeError). *)
Record Response := {
  status_code : Z;
  headers : gmap str str;
  text : str;
  json : option PyVal
}.

Inductive PostOutcome :=
| Responded (resp : Response)
| RequestException (exc : str).

Inductive CacheCall :=
| CallGet (key : str)
| CallSetex (key : str) (ttl_seconds : Z) (value : PyVal).

(** What a [TokenManager] acts on: its cache, its HTTP session (the answer
    may depend on the requests sent before), and the record of the requests
    sent and of the cache methods called. *)
Record World (C : Type) := {
  cache : C;
  session : list Request -> Request -> PostOutcome;
  sent : list Request;
  cache_calls : list CacheCall
}.
Arguments cache {C} w.
Arguments session {C} w.
Arguments sent {C} w.
Arguments cache_calls {C} w.

(** State and exception monad. *)
Definition M (C A : Type) : Type := World C -> Result A * World C.

Definition ret {C A} (a : A) : M C A := fun w => (Ok a, w).
Definition raise {C A} (e : PyExn) : M C A := fun w => (Raise e, w).
Definition bind {C A B} (c : M C A) (k : A -> M C B) : M C B :=
  fun w => match c w with
           | (Ok a, w') => k a w'
           | (Raise e, w') => (Raise e, w')
           end.
Definition lift {C A} (r : Result A) : M C A := fun w => (r, w).

Notation "'let!' x ':=' c 'in' k" := (bind c (fun x => k))
  (at level 10, x name, c at level 100, k at level 200).

(** The world after [get] was called on the cache. *)
Definition after_lookup {C} (w : World C) (key : str) (c : C) : World C :=
  {| cache := c; session := session w; sent := sent w;
     cache_calls := cache_calls w ++ [CallGet key] |}.

(** The world after [setex] was called on the cache. *)
Definition after_store {C} (w : World C) (key : str) (ttl : Z) (v : PyVal)
  (c : C) : World C :=
  {| cache := c; session := session w; sent := sent w;
     cache_calls := cache_calls w ++ [CallSetex key ttl v] |}.

(** The world after one request went out. *)
Definition after_post {C} (w : World C) (req : Request) : World C :=
  {| cache := cache w; session := session w; sent := sent w ++ [req];
     cache_calls := cache_calls w |}.

(** [self._cache.get(key)] *)
Definition cache_get {C} `{TokenCache C} (key : str) : M C (option bytes) :=
  fun w =>
    let '(r, c') := tc_get key (cache w) in (r, after_lookup w key c').

(** [self._cache.setex(key, ttl, value)] *)
Definition cache_setex {C} `{TokenCache C} (key : str) (ttl : Z) (value : PyVal)
  : M C unit :=
  fun w =>
    let '(r, c') := tc_setex key ttl value (cache w) in
    (r, after_store w key ttl value c').

(** [self._session.post(...)], with [except requests.RequestException] folded
    into the outcome. *)
Definition session_post {C} (req : Request) : M C PostOutcome :=
  fun w => (Ok (session w (sent w) req), after_post w req).

(** ** auth.py *)

(** The fields of a [TokenManager] that do not change; [_session] and the
    cache chosen by [__init__] are in the [World]. *)
Record TokenManager := {
  _username : str;
  _api_key : str;
  _cfg : SkribbleConfig;
  _tenant_id : option str
}.

Definition NO_TOKEN_MESSAGE :=
  pystr "Login succeeded but no access token found in response JSON.".
Definition EMPTY_TOKEN_MESSAGE :=
  pystr "Login succeeded but access token is empty.".

(** [str(v)] of a value that is not a [str] (numbers, containers, None):
    Python's own formatting, which the module only passes through. *)
Class PyFormat := py_repr : PyVal -> str.

Section Auth.

Context `{PyFormat}.

(** [str(v)], also what an f-string puts for [{v}]. *)
Definition py_str (v : PyVal) : str :=
  match v with
  | PStr s => s
  | _ => py_repr v
  end.

(** *** _InMemoryTokenCache *)

Definition get (key : str) (self : _InMemoryTokenCache)
  : Result (option bytes) * _InMemoryTokenCache :=
  match _data self !! key with
  | None => (Ok None, self)
  | Some (expires_at, value) =>
    let '(now, self') := time_time self in
    if (expires_at <? now)%float
    then (Ok None, with_data self' (delete key (_data self')))
    else (Ok (Some value), self')
  end.

(** [value if isinstance(value, (bytes, bytearray))
     else str(value).encode("utf-8")] *)
Definition to_payload (value : PyVal) : option bytes :=
  match value with
  | PBytes b => Some b
  | _ => encode_utf8 (py_str value)
  end.

Definition setex (key : str) (ttl_seconds : Z) (value : PyVal)
  (self : _InMemoryTokenCache) : Result unit * _InMemoryTokenCache :=
  match to_payload value with
  | None => (Raise UnicodeEncodeError, self)
  | Some payload =>
    let '(now, self') := time_time self in
    match float_of_int ttl_seconds with
    | None => (Raise OverflowError, self')
    | Some ttl =>
      (Ok tt,
       with_data self' (<[key := ((now + ttl)%float, payload)]> (_data self')))
    end
  end.

#[export] Instance InMemory_TokenCache : TokenCache _InMemoryTokenCache :=
  {| tc_get := get; tc_setex := setex |}.

(** *** TokenManager *)

Context {C : Type} `{TokenCache C}.

(** The property [_cache_key]. *)
Definition _cache_key (self : TokenManager) : Result str :=
  match getattr_config (_cfg self) "cache_key_prefix" with
  | Raise e => Raise e
  | Ok prefix =>
    let base := py_str prefix ++ pystr ":token:" ++ _username self in
    match _tenant_id self with
    | Some t => if truthy (PStr t) then Ok (base ++ pystr ":" ++ t) else Ok base
    | None => Ok base
    end
  end.

(** The arguments of [self._session.post(...)]. *)
Definition login_request (self : TokenManager) : Request :=
  {| req_url := api_base_url (_cfg self) ++ pystr "/access/login";
     req_json :=
       PDict (<[pystr "username" := PStr (_username self)]>
              (<[pystr "api-key" := PStr (_api_key self)]> ∅));
     req_timeout := timeout (_cfg self);
     req_verify := verify_ssl (_cfg self) |}.

(** [data.get("message") or data.get("error") or text] *)
Definition failure_message (data : PyVal) (text : str) : Result PyVal :=
  or_else (method_get data (pystr "message"))
    (or_else (method_get data (pystr "error")) (Ok (PStr text))).

(** The branch [if resp.status_code != 200]: it always raises. *)
Definition login_failed (resp : Response) : PyExn :=
  let text := text resp in
  match json resp with
  | Some data =>
    match failure_message data text with
    | Ok msg =>
      SkribbleHTTPError (status_code resp)
        (pystr "Login failed: " ++ py_str msg) data text
    | Raise e => e
    end
  | None =>
    SkribbleHTTPError (status_code resp)
      (pystr "Login failed: " ++ py_str (PStr text)) PNone text
  end.

(** [data.get("access_token") or data.get("token") or data.get("jwt")
     or data.get("AUTH_ACCESS_TOKEN")] *)
Definition token_fields (data : PyVal) : Result PyVal :=
  or_else (method_get data (pystr "access_token"))
    (or_else (method_get data (pystr "token"))
      (or_else (method_get data (pystr "jwt"))
        (method_get data (pystr "AUTH_ACCESS_TOKEN")))).

(** From [if not token: raise ...("... is empty.")] to [return token]. *)
Definition return_token (token : PyVal) : Result PyVal :=
  if negb (truthy token) then Raise (SkribbleAuthError EMPTY_TOKEN_MESSAGE)
  else Ok token.

(** The rest of [_login] once the status is 200. *)
Definition read_token (resp : Response) : Result PyVal :=
  let content_type := default [] (headers resp !! pystr "Content-Type") in
  if str_in (pystr "application/json") content_type then
    match json resp with
    | None => Raise JSONDecodeError
    | Some data =>
      match token_fields data with
      | Raise e => Raise e
      | Ok token =>
        let token :=
          if negb (truthy token)
          then (if is_str data then data else token)
          else token in
        if negb (truthy token)
        then Raise (SkribbleAuthError NO_TOKEN_MESSAGE)
        else return_token token
      end
    end
  else return_token (PStr (strip (text resp))).

(** What [_login] makes of the outcome of the request. *)
Definition login_outcome (out : PostOutcome) : Result PyVal :=
  match out with
  | RequestException exc =>
    Raise (SkribbleAuthError
             (pystr "Failed to call Skribble login endpoint: " ++ exc))
  | Responded resp =>
    if negb (status_code resp =? 200)%Z
    then Raise (login_failed resp)
    else read_token resp
  end.

Definition _login (self : TokenManager) : M C PyVal :=
  let! out := session_post (login_request self) in
  lift (login_outcome out).

Definition get_access_token (self : TokenManager) (force_refresh : bool)
  : M C PyVal :=
  let! hit :=
    (if negb force_refresh then
       let! key := lift (_cache_key self) in
       let! cached := cache_get key in
       match cached with
       | Some b =>
         if truthy (PBytes b) then
           match decode_utf8 b with
           | Some s => ret (Some (PStr s))
           | None => raise UnicodeDecodeError
           end
         else ret None
       | None => ret None
       end
     else ret None) in
  match hit with
  | Some token => ret token
  | None =>
    let! token := _login self in
    let! key := lift (_cache_key self) in
    let! _ := cache_setex key (access_token_ttl_seconds (_cfg self)) token in
    ret token
  end.

End Auth.

(** ** What the statements below speak of *)

(** The four field names, in the order the specification gives them. *)
Definition TOKEN_FIELDS : list str :=
  [pystr "access_token"; pystr "token"; pystr "jwt"; pystr "AUTH_ACCESS_TOKEN"].

(** [d.get(name)] on a dict. *)
Definition dict_get (d : gmap str PyVal) (name : str) : PyVal :=
  default PNone (d !! name).

(** The first of the four fields whose value is truthy. *)
Definition first_truthy_field (d : gmap str PyVal) : option PyVal :=
  List.find truthy (dict_get d <$> TOKEN_FIELDS).

(** The first truthy of the fields ["message"] and ["error"], else the raw
    text of the response. *)
Definition error_detail (d : gmap str PyVal) (text : str) : PyVal :=
  if truthy (dict_get d (pystr "message")) then dict_get d (pystr "message")
  else if truthy (dict_get d (pystr "error")) then dict_get d (pystr "error")
  else PStr text.

(** The response declares a JSON content type. *)
Definition json_declared (resp : Response) : bool :=
  str_in (pystr "application/json")
    (default [] (headers resp !! pystr "Content-Type")).

(** The tenant that takes part in the key: an empty identifier counts as
    none. *)
Definition effective_tenant (self : TokenManager) : option str :=
  match _tenant_id self with
  | Some (c :: t) => Some (c :: t)
  | _ => None
  end.

(** What the tenant adds to the key. *)
Definition key_suffix (t : option str) : str :=
  match t with
  | Some t => pystr ":" ++ t
  | None => []
  end.

(** No [":"] in the string. *)
Definition colon_free (s : str) : Prop := 58 ∉ s.

(** A call enters the login exchange in world [w0]: at once when the refresh
    is forced, otherwise after the cache answered the manager's key with
    nothing or with an empty value. *)
Definition misses `{PyFormat} {C} `{TokenCache C}
  (self : TokenManager) (force_refresh : bool) (w w0 : World C) : Prop :=
  if force_refresh then w0 = w
  else exists key cached c0,
      _cache_key self = Ok key /\
      tc_get key (cache w) = (Ok cached, c0) /\
      (cached = None \/ cached = Some []) /\
      w0 = after_lookup w key c0.

(** ** Data of the examples *)

(** The examples format only [str] values, for which [py_repr] is not
    consulted. *)
Definition repr_unused : PyFormat := fun _ => [].

(** A configuration that carries the attribute [cache_key_prefix]. *)
Definition prefixed_config (prefix : str) : SkribbleConfig := {|
  class_name := "SkribbleConfig";
  api_base_url := DEFAULT_API_BASE_URL;
  management_base_url := DEFAULT_MANAGEMENT_BASE_URL;
  timeout := 30;
  verify_ssl := true;
  user_agent := pystr "skribble-sdk/0.1.4";
  access_token_ttl_seconds := DEFAULT_ACCESS_TOKEN_TTL_SECONDS;
  redis_key_prefix := pystr "skribble";
  instance_attrs := [("cache_key_prefix"%string, PStr prefix)]
|}.

Definition manager (cfg : SkribbleConfig) (username : string)
  (tenant : option str) : TokenManager :=
  {| _username := pystr username; _api_key := pystr "secret";
     _cfg := cfg; _tenant_id := tenant |}.

Definition alice : TokenManager :=
  manager (prefixed_config (pystr "skribble")) "alice" None.

Definition alice_key : str := pystr "skribble:token:alice".

(** A fallback cache with the given entries and clock readings. *)
Definition memory (d : gmap str (float * bytes)) (readings : nat -> float)
  : _InMemoryTokenCache :=
  {| _data := d; time_readings := readings; time_calls := 0 |}.

Definition json_response (status : Z) (body : PyVal) : Response :=
  {| status_code := status;
     headers := {[ pystr "Content-Type" := pystr "application/json" ]};
     text := [];
     json := Some body |}.

(** A world whose server always answers [resp]. *)
Definition world (c : _InMemoryTokenCache) (resp : Response)
  : World _InMemoryTokenCache :=
  {| cache := c; session := fun _ _ => Responded resp; sent := [];
     cache_calls := [] |}.

Definition tok123 : bytes := [x74; x6f; x6b; x31; x32; x33].

Definition token_response : Response :=
  json_response 200 (PDict {[ pystr "access_token" := PStr (pystr "tok123") ]}).

(** A clock that advances by [step] seconds from one reading to the next. *)
Definition ticking (step : Z) : nat -> float :=
  fun n => default infinity (float_of_int (step * Z.of_nat n)).

Definition empty_world (step : Z) (resp : Response) : World _InMemoryTokenCache :=
  world (memory ∅ (ticking step)) resp.

Definition both_fields : gmap str PyVal :=
  {[ pystr "token" := PStr (pystr "a");
     pystr "access_token" := PStr (pystr "b") ]}.


(** ** The paths of a call *)

(** The seven ways a call of [get_access_token] can go, with its result and
    the world it leaves. *)
Inductive Path `{PyFormat} {C : Type} `{TokenCache C}
  (self : TokenManager) (force_refresh : bool) (w : World C)
  : Result PyVal -> World C -> Prop :=
| path_no_key (e : PyExn) :
    force_refresh = false ->
    _cache_key self = Raise e ->
    Path self force_refresh w (Raise e) w
| path_get_raises (key : str) (e : PyExn) (c0 : C) :
    force_refresh = false ->
    _cache_key self = Ok key ->
    tc_get key (cache w) = (Raise e, c0) ->
    Path self force_refresh w (Raise e) (after_lookup w key c0)
| path_hit (key : str) (value : bytes) (c0 : C) (token : str) :
    force_refresh = false ->
    _cache_key self = Ok key ->
    tc_get key (cache w) = (Ok (Some value), c0) ->
    value <> [] ->
    decode_utf8 value = Some token ->
    Path self force_refresh w (Ok (PStr token)) (after_lookup w key c0)
| path_undecodable (key : str) (value : bytes) (c0 : C) :
    force_refresh = false ->
    _cache_key self = Ok key ->
    tc_get key (cache w) = (Ok (Some value), c0) ->
    value <> [] ->
    decode_utf8 value = None ->
    Path self force_refresh w (Raise UnicodeDecodeError) (after_lookup w key c0)
| path_login_raises (w0 : World C) (e : PyExn) :
    misses self force_refresh w w0 ->
    login_outcome (session w0 (sent w0) (login_request self)) = Raise e ->
    Path self force_refresh w (Raise e) (after_post w0 (login_request self))
| path_store_no_key (w0 : World C) (token : PyVal) (e : PyExn) :
    misses self force_refresh w w0 ->
    login_outcome (session w0 (sent w0) (login_request self)) = Ok token ->
    _cache_key self = Raise e ->
    Path self force_refresh w (Raise e) (after_post w0 (login_request self))
| path_stored (w0 : World C) (token : PyVal) (key : str) (r : Result unit)
    (c1 : C) :
    misses self force_refresh w w0 ->
    login_outcome (session w0 (sent w0) (login_request self)) = Ok token ->
    _cache_key self = Ok key ->
    tc_setex key (access_token_ttl_seconds (_cfg self)) token (cache w0)
    = (r, c1) ->
    Path self force_refresh w
      (match r with Ok _ => Ok token | Raise e => Raise e end)
      (after_store (after_post w0 (login_request self))
         key (access_token_ttl_seconds (_cfg self)) token c1).

(** ** resources/signature_requests.py, resources/monitoring.py *)

(** The resource clients build the arguments of [self._client.request] and
    return what it gives back. A method is modelled up to that call: the
    arguments it passes ([None] for a keyword it does not pass), or the
    SkribbleError it raises before. *)
Record ClientCall := {
  call_method : str;
  call_path : str;
  call_json : option PyVal;
  call_params : option PyVal;
  call_expected_status : option Z;
  call_management : option bool;
  call_auth : option bool
}.

Inductive Outcome :=
| Called (c : ClientCall)
| SkribbleError (message : str).

(** [v is None] *)
Definition is_none (v : PyVal) : bool :=
  match v with PNone => true | _ => false end.

(** [if v is not None: body[name] = v] *)
Definition set_unless_none (body : gmap str PyVal) (field : str * PyVal)
  : gmap str PyVal :=
  if is_none field.2 then body else <[field.1 := field.2]> body.

(** A run of such statements, in the order of the source. *)
Definition fill (body : gmap str PyVal) (fields : list (str * PyVal))
  : gmap str PyVal :=
  foldl set_unless_none body fields.

(** [body.update(extra_fields)] *)
Definition update (body extra : gmap str PyVal) : gmap str PyVal :=
  extra ∪ body.

Module SignatureRequestsClient.

(** The keyword arguments of [create]; [PNone] is the default [None]. *)
Record CreateArgs := {
  title : PyVal;
  signatures : PyVal;
  content : PyVal;
  file_url : PyVal;
  document_id : PyVal;
  visual_signatures : PyVal;
  observers : PyVal;
  callbacks : PyVal;
  auto_attachments : PyVal;
  signature_level : PyVal;
  legislation : PyVal;
  owner_account_email : PyVal;
  signing_sequence : PyVal;
  disable_tan : PyVal;
  disable_notifications : PyVal
}.

Definition EXACTLY_ONE_MESSAGE :=
  pystr "Exactly one of `content`, `file_url` or `document_id` must be set".

(** [[name for name, val in [...] if val is not None]] *)
Definition source_fields (a : CreateArgs) : list str :=
  fst <$> List.filter (fun nv : str * PyVal => negb (is_none nv.2))
            [(pystr "content", content a); (pystr "file_url", file_url a);
             (pystr "document_id", document_id a)].

(** The optional fields in the order of the [if] statements. *)
Definition create_fields (a : CreateArgs) : list (str * PyVal) :=
  [(pystr "content", content a);
   (pystr "file_url", file_url a);
   (pystr "document_id", document_id a);
   (pystr "visual_signatures", visual_signatures a);
   (pystr "observers", observers a);
   (pystr "callbacks", callbacks a);
   (pystr "auto_attachments", auto_attachments a);
   (pystr "signature_level", signature_level a);
   (pystr "legislation", legislation a);
   (pystr "owner_account_email", owner_account_email a);
   (pystr "signing_sequence", signing_sequence a);
   (pystr "disable_tan", disable_tan a);
   (pystr "disable_notifications", disable_notifications a)].

(** The names of the keyword parameters of [create]: Python binds these
    keywords to the parameters, so they are never keys of [extra_fields]. *)
Definition CREATE_PARAMETERS : list str :=
  [pystr "title"; pystr "signatures"; pystr "content"; pystr "file_url";
   pystr "document_id"; pystr "visual_signatures"; pystr "observers";
   pystr "callbacks"; pystr "auto_attachments"; pystr "signature_level";
   pystr "legislation"; pystr "owner_account_email";
   pystr "signing_sequence"; pystr "disable_tan";
   pystr "disable_notifications"].


Definition create_body (a : CreateArgs) (extra_fields : gmap str PyVal)
  : gmap str PyVal :=
  let body : gmap str PyVal :=
    <[pystr "signatures" := signatures a]>
      (<[pystr "title" := title a]> ∅) in
  update (fill body (create_fields a)) extra_fields.

Definition create (a : CreateArgs) (extra_fields : gmap str PyVal) : Outcome :=
  if negb (length (source_fields a) =? 1)%nat
  then SkribbleError EXACTLY_ONE_MESSAGE
  else Called {| call_method := pystr "POST";
                 call_path := pystr "/signature-requests";
                 call_json := Some (PDict (create_body a extra_fields));
                 call_params := None; call_expected_status := None;
                 call_management := None; call_auth := None |}.




Definition AT_LEAST_ONE_MESSAGE :=
  pystr "At least one of account_email or signer_identity_data must be provided.".

Definition add_signer (signature_request_id : str)
  (account_email signer_identity_data : PyVal)
  (extra_fields : gmap str PyVal) : Outcome :=
  if negb (truthy account_email) && negb (truthy signer_identity_data)
  then SkribbleError AT_LEAST_ONE_MESSAGE
  else
    let body :=
      fill ∅ [(pystr "account_email", account_email);
              (pystr "signer_identity_data", signer_identity_data)] in
    Called {| call_method := pystr "POST";
              call_path := pystr "/signature-requests/" ++ signature_request_id
                           ++ pystr "/signatures";
              call_json := Some (PDict (update body extra_fields));
              call_params := None; call_expected_status := None;
              call_management := None; call_auth := None |}.

Definition remove_signer (signature_request_id signer_id : str) : ClientCall :=
  {| call_method := pystr "DELETE";
     call_path := pystr "/signature-requests/" ++ signature_request_id
                  ++ pystr "/signatures/" ++ signer_id;
     call_json := None; call_params := None;
     call_expected_status := Some 204%Z;
     call_management := None; call_auth := None |}.

Definition remove_attachment (signature_request_id attachment_id : str)
  : ClientCall :=
  {| call_method := pystr "DELETE";
     call_path := pystr "/signature-requests/" ++ signature_request_id
                  ++ pystr "/attachments/" ++ attachment_id;
     call_json := None; call_params := None;
     call_expected_status := Some 204%Z;
     call_management := None; call_auth := None |}.

Definition withdraw (signature_request_id : str) (message : PyVal)
  : ClientCall :=
  let body : gmap str PyVal :=
    if negb (is_none message) then {[ pystr "message" := message ]} else ∅ in
  {| call_method := pystr "POST";
     call_path := pystr "/signature-requests/" ++ signature_request_id
                  ++ pystr "/withdraw";
     call_json := Some (if truthy (PDict body) then PDict body else PNone);
     call_params := None; call_expected_status := None;
     call_management := None; call_auth := None |}.

End SignatureRequestsClient.

Module MonitoringClient.

Import SignatureRequestsClient.

(** How the keywords [**extra_fields] of the wrapper reach [create]: a key
    that names a parameter of [create] becomes that argument, the others
    stay extra fields. *)
Definition keyword (kw : gmap str PyVal) (name : string) : PyVal :=
  default PNone (kw !! pystr name).

Definition create_signature_request_with_callbacks
  (title content signatures callbacks : PyVal)
  (extra_fields : gmap str PyVal) : Outcome :=
  create
    {| SignatureRequestsClient.title := title;
       SignatureRequestsClient.signatures := signatures;
       SignatureRequestsClient.content := content;
       file_url := keyword extra_fields "file_url";
       document_id := keyword extra_fields "document_id";
       visual_signatures := keyword extra_fields "visual_signatures";
       observers := keyword extra_fields "observers";
       SignatureRequestsClient.callbacks := callbacks;
       auto_attachments := keyword extra_fields "auto_attachments";
       signature_level := keyword extra_fields "signature_level";
       legislation := keyword extra_fields "legislation";
       owner_account_email := keyword extra_fields "owner_account_email";
       signing_sequence := keyword extra_fields "signing_sequence";
       disable_tan := keyword extra_fields "disable_tan";
       disable_notifications := keyword extra_fields "disable_notifications" |}
    (filter (fun kv => kv.1 ∉ CREATE_PARAMETERS) extra_fields).

End MonitoringClient.

(** The value a run of [if v is not None] statements gives a key: the last
    non-None value listed for it. *)
Fixpoint given (fields : list (str * PyVal)) (k : str) : option PyVal :=
  match fields with
  | [] => None
  | (n, v) :: rest =>
    match given rest k with
    | Some v' => Some v'
    | None => if bool_decide (n = k) && negb (is_none v) then Some v else None
    end
  end.

(** No ["/"] in the string. *)
Definition slash_free (s : str) : Prop := 47 ∉ s.

(** ** Data of further examples *)

(** A backend that cannot be reached. *)
Inductive Unreachable := unreachable.

Definition Unreachable_TokenCache : TokenCache Unreachable :=
  {| tc_get := fun _ c => (Raise (BackendError (pystr "connection refused")), c);
     tc_setex := fun _ _ _ c =>
                   (Raise (BackendError (pystr "connection refused")), c) |}.

Definition unreachable_world : World Unreachable :=
  {| cache := unreachable; session := fun _ _ => Responded token_response;
     sent := []; cache_calls := [] |}.

(** A world whose session raises a RequestException. *)
Definition offline_world : World _InMemoryTokenCache :=
  {| cache := memory ∅ (ticking 1);
     session := fun _ _ => RequestException (pystr "timed out");
     sent := []; cache_calls := [] |}.

Definition html_response : Response :=
  {| status_code := 200;
     headers := {[ pystr "Content-Type" := pystr "application/json" ]};
     text := pystr "<html>";
     json := None |}.

Definition plain_response : Response :=
  {| status_code := 200;
     headers := {[ pystr "Content-Type" := pystr "text/plain" ]};
     text := pystr "  raw-token  " ++ [10];
     json := None |}.

Definition bob : TokenManager :=
  manager (prefixed_config (pystr "skribble")) "bob" None.

Definition bob_key : str := pystr "skribble:token:bob".



(** * Properties *)

(** ** UTF-8 round trip *)

Ltac Zify.zify_post_hook ::= Z.to_euclidean_division_equations.

Lemma byte_of_N_to_N (n : N) : n < 256 -> Byte.to_N (byte_of_N n) = n.
Proof.
  intros Hn. unfold byte_of_N.
  destruct (Byte.of_N n) as [b|] eqn:E; simpl.
  - by apply Byte.to_of_N.
  - apply Byte.of_N_None_iff in E. lia.
Qed.

Ltac bool_cases :=
  repeat match goal with
  | |- context [?a <? ?b] => destruct (N.ltb_spec a b); try lia
  | |- context [?a <=? ?b] => destruct (N.leb_spec a b); try lia
  end.

Lemma decode_utf8_step (c : N) (b rest : bytes) :
  encode_codepoint c = Some b ->
  decode_utf8 (b ++ rest) = cons c <$> decode_utf8 rest.
Proof.
  unfold encode_codepoint, is_surrogate.
  destruct (N.ltb_spec c 0x80); [|destruct (N.ltb_spec c 0x800);
    [|destruct (N.ltb_spec c 0x10000); [|destruct (N.ltb_spec c 0x110000)]]].
  - intros [= <-]. cbn [app decode_utf8].
    rewrite byte_of_N_to_N by lia. bool_cases. done.
  - intros [= <-]. cbn [app decode_utf8].
    rewrite !byte_of_N_to_N by lia. unfold is_cont. bool_cases. cbn [andb].
    do 2 f_equal. lia.
  - destruct (N.leb_spec 0xD800 c), (N.leb_spec c 0xDFFF); cbn [andb]; try done.
    all: intros [= <-]; cbn [app decode_utf8];
      rewrite !byte_of_N_to_N by lia; unfold is_cont, is_surrogate.
    all: replace ((224 + c / 4096 - 224) * 4096
                  + (128 + (c / 64) mod 64 - 128) * 64
                  + (128 + c mod 64 - 128)) with c by lia.
    all: bool_cases; cbn [andb negb]; done.
  - intros [= <-]. cbn [app decode_utf8].
    rewrite !byte_of_N_to_N by lia. unfold is_cont.
    replace ((240 + c / 262144 - 240) * 262144
             + (128 + (c / 4096) mod 64 - 128) * 4096
             + (128 + (c / 64) mod 64 - 128) * 64
             + (128 + c mod 64 - 128)) with c by lia.
    bool_cases; cbn [andb]; done.
  - done.
Qed.

(** What [encode] wrote, [decode] reads back. *)
Lemma decode_encode_utf8 (s : str) (b : bytes) :
  encode_utf8 s = Some b -> decode_utf8 b = Some s.
Proof.
  revert b. induction s as [|c r IH]; intros b; simpl.
  - by intros [= <-].
  - destruct (encode_codepoint c) as [bc|] eqn:Ec; [|done].
    destruct (encode_utf8 r) as [br|]; [|done].
    intros [= <-]. rewrite (decode_utf8_step c bc br Ec), (IH br eq_refl). done.
Qed.

(** ** The monad, the login exchange, the miss *)

Section Properties.

Context `{PyFormat}.

(** One call of [_login] sends exactly one request and leaves the cache and
    the record of its calls alone. *)
Lemma _login_run {C} `{TokenCache C} (self : TokenManager) (w : World C) :
  _login self w =
  (login_outcome (session w (sent w) (login_request self)),
   after_post w (login_request self)).
Proof. reflexivity. Qed.

(** A call that misses continues with the login exchange, the store and the
    return. *)
Lemma get_access_token_miss {C} `{TokenCache C}
  (self : TokenManager) (force_refresh : bool) (w w0 : World C) :
  misses self force_refresh w w0 ->
  get_access_token self force_refresh w =
  (let! token := _login self in
   let! key := lift (_cache_key self) in
   let! _ := cache_setex key (access_token_ttl_seconds (_cfg self)) token in
   ret token) w0.
Proof.
  unfold misses, get_access_token. destruct force_refresh; simpl.
  - by intros ->.
  - intros (key & cached & c0 & Hkey & Hget & Hfalsy & ->).
    unfold bind at 1 2 3. unfold lift at 1. rewrite Hkey.
    unfold cache_get. rewrite Hget.
    by destruct Hfalsy as [-> | ->].
Qed.

(** When the login exchange fails, so does the call, and [setex] is not
    reached. *)
Lemma get_access_token_login_raises {C} `{TokenCache C}
  (self : TokenManager) (force_refresh : bool) (w w0 : World C) (e : PyExn) :
  misses self force_refresh w w0 ->
  login_outcome (session w0 (sent w0) (login_request self)) = Raise e ->
  get_access_token self force_refresh w =
  (Raise e, after_post w0 (login_request self)).
Proof.
  intros Hmiss Hout. rewrite (get_access_token_miss _ _ _ _ Hmiss).
  unfold bind at 1. by rewrite _login_run, Hout.
Qed.

(** When the login exchange yields a token, the call stores it and returns
    what [setex] lets it return. *)
Lemma get_access_token_login_ok {C} `{TokenCache C}
  (self : TokenManager) (force_refresh : bool) (w w0 : World C)
  (key : str) (token : PyVal) (r : Result unit) (c1 : C) :
  misses self force_refresh w w0 ->
  _cache_key self = Ok key ->
  login_outcome (session w0 (sent w0) (login_request self)) = Ok token ->
  tc_setex key (access_token_ttl_seconds (_cfg self)) token (cache w0) = (r, c1) ->
  get_access_token self force_refresh w =
  (match r with Ok _ => Ok token | Raise e => Raise e end,
   after_store (after_post w0 (login_request self))
     key (access_token_ttl_seconds (_cfg self)) token c1).
Proof.
  intros Hmiss Hkey Hout Hset. rewrite (get_access_token_miss _ _ _ _ Hmiss).
  unfold bind at 1. rewrite _login_run, Hout.
  unfold bind at 1. unfold lift. rewrite Hkey.
  unfold bind, cache_setex. simpl. rewrite Hset. by destruct r.
Qed.

(** ** The cache key *)

(** With the attribute [cache_key_prefix] on the configuration, the key is
    [prefix:token:username], followed by [:tenant] for a non-empty tenant. *)
Lemma cache_key_format (self : TokenManager) (prefix : PyVal) :
  getattr_config (_cfg self) "cache_key_prefix" = Ok prefix ->
  _cache_key self =
  Ok (py_str prefix ++ pystr ":token:" ++ _username self ++
      key_suffix (effective_tenant self)).
Proof.
  intros Hp. unfold _cache_key, effective_tenant, key_suffix. rewrite Hp.
  destruct (_tenant_id self) as [[|c t]|]; simpl.
  - by rewrite app_nil_r.
  - by rewrite <- !app_assoc.
  - by rewrite app_nil_r.
Qed.

(** C1. The key is read from the attribute [cache_key_prefix] of the
    configuration. [SkribbleConfig] declares [redis_key_prefix] and no
    [cache_key_prefix]: with the default configuration, whatever the user
    name and the tenant, computing the key raises AttributeError, and so
    does every call of [get_access_token] that consults the cache, before
    any cache or network operation. *)
Theorem cache_key_default_config_raises
  (username api_key : str) (tenant : option str) :
  let self := {| _username := username; _api_key := api_key;
                 _cfg := SkribbleConfig_default; _tenant_id := tenant |} in
  _cache_key self = Raise (AttributeError "SkribbleConfig" "cache_key_prefix")
  /\ forall (C : Type) (backend : TokenCache C) (w : World C),
      get_access_token self false w =
      (Raise (AttributeError "SkribbleConfig" "cache_key_prefix"), w).
Proof. split; [reflexivity | intros; reflexivity]. Qed.

(** A configuration built by the dataclasses alone, whatever the values of
    its fields, has no attribute [cache_key_prefix]: computing the key
    raises AttributeError, which names the class of the instance. *)
Lemma cache_key_undeclared (self : TokenManager) :
  instance_attrs (_cfg self) = [] ->
  _cache_key self
  = Raise (AttributeError (class_name (_cfg self)) "cache_key_prefix").
Proof.
  intros Hattrs. unfold _cache_key, getattr_config. rewrite Hattrs.
  reflexivity.
Qed.

(** ** The fast path *)

(** Without forced refresh, when the key can be computed and the cache
    answers it with a non-empty byte value, [get_access_token] returns that
    value decoded as UTF-8 after the one [get]. *)
Lemma get_access_token_hit {C} `{TokenCache C}
  (self : TokenManager) (w : World C) (key : str) (value : bytes)
  (token : str) (c1 : C) :
  _cache_key self = Ok key ->
  tc_get key (cache w) = (Ok (Some value), c1) ->
  value <> [] ->
  decode_utf8 value = Some token ->
  get_access_token self false w = (Ok (PStr token), after_lookup w key c1).
Proof.
  intros Hkey Hget Hne Hdec.
  unfold get_access_token. simpl.
  unfold bind at 1 2 3. unfold lift. rewrite Hkey.
  unfold cache_get. rewrite Hget.
  destruct value as [|b0 value]; [done|]. cbn [truthy]. by rewrite Hdec.
Qed.

(** C2. The fast path starts by computing the manager's key, which reads
    the attribute [cache_key_prefix] of the configuration. For every
    manager whose configuration is one the dataclasses build
    ([SkribbleConfig(...)], [SkribbleEUConfig(...)], whatever the field
    values), every cache backend and whatever the cache holds, the call
    without forced refresh raises AttributeError naming the class and the
    attribute: no token is returned, and the cache is not consulted (the
    world, with its record of cache calls and requests, is as before). *)
Theorem cached_token_not_served (self : TokenManager) :
  instance_attrs (_cfg self) = [] ->
  forall (C : Type) (backend : TokenCache C) (w : World C),
    get_access_token self false w =
    (Raise (AttributeError (class_name (_cfg self)) "cache_key_prefix"), w).
Proof.
  intros Hattrs C backend w. unfold get_access_token. simpl.
  unfold bind at 1 2. unfold lift.
  by rewrite (cache_key_undeclared self Hattrs).
Qed.

(** On the fallback cache a hit leaves the entries as they are. *)
Lemma get_hit_keeps_data (key : str) (c c1 : _InMemoryTokenCache)
  (value : bytes) :
  get key c = (Ok (Some value), c1) -> _data c1 = _data c.
Proof.
  unfold get. destruct (_data c !! key) as [[e v]|]; [|done]. simpl.
  destruct (_ <? _)%float; [done|]. by intros [= _ <-].
Qed.

(** ** The fallback cache *)

(** Adding the float zero, which is what a TTL of 0 is converted to, does
    not change how an instant compares. *)
Lemma ltb_add_zero (x y : float) : (x + 0 <? y)%float = (x <? y)%float.
Proof.
  rewrite !ltb_spec, add_spec. unfold SF64add.
  change (Prim2SF 0%float) with (S754_zero false).
  destruct (Prim2SF x) as [[|]| | |]; reflexivity.
Qed.

(** The default TTL is a float as it stands; 2{^1024} is the first power of
    two beyond the range. *)
Lemma float_of_int_default_ttl :
  float_of_int (access_token_ttl_seconds SkribbleConfig_default)
  = Some 1200%float
  /\ float_of_int (2 ^ 1024) = None.
Proof. split; vm_compute; reflexivity. Qed.

(** [setex] with a value it can turn into bytes and a TTL in the range of
    the floats: one clock reading, one entry written over whatever the key
    held. *)
Lemma setex_run (key : str) (ttl : Z) (f : float) (value : PyVal)
  (payload : bytes) (self : _InMemoryTokenCache) :
  to_payload value = Some payload ->
  float_of_int ttl = Some f ->
  setex key ttl value self =
  (Ok tt,
   {| _data := <[key := ((time_readings self (time_calls self) + f)%float,
                         payload)]> (_data self);
      time_readings := time_readings self;
      time_calls := S (time_calls self) |}).
Proof. intros Hp Hf. unfold setex. by rewrite Hp, Hf. Qed.

(** [setex] with a TTL beyond the range of the floats: the clock is read,
    the sum raises OverflowError, the entries stay as they were. *)
Lemma setex_overflow (key : str) (ttl : Z) (value : PyVal)
  (payload : bytes) (self : _InMemoryTokenCache) :
  to_payload value = Some payload ->
  float_of_int ttl = None ->
  setex key ttl value self =
  (Raise OverflowError,
   {| _data := _data self;
      time_readings := time_readings self;
      time_calls := S (time_calls self) |}).
Proof. intros Hp Hf. unfold setex. by rewrite Hp, Hf. Qed.

(** [setex] with a value that has no UTF-8 encoding raises before the clock
    is read. *)
Lemma setex_unencodable (key : str) (ttl : Z) (value : PyVal)
  (self : _InMemoryTokenCache) :
  to_payload value = None ->
  setex key ttl value self = (Raise UnicodeEncodeError, self).
Proof. intros Hp. unfold setex. by rewrite Hp. Qed.

(** C5 (as amended). [get] returns nothing for an absent key. For a present
    key it reads the clock once and compares as the floats do: an entry
    whose expiry instant lies strictly before the reading is removed and
    nothing is returned; any other entry (expiry instant equal to the
    reading, or later) is returned and kept. An entry stored with
    [setex(key, 0, v)] is therefore absent on the next [get] when the clock
    has advanced between the two readings, and returned when it has not. *)
Theorem get_lazy_expiry :
  (forall (key : str) (self : _InMemoryTokenCache),
      let now := time_readings self (time_calls self) in
      match _data self !! key with
      | None => get key self = (Ok None, self)
      | Some (expires_at, value) =>
        ((expires_at <? now)%float = true ->
         fst (get key self) = Ok None /\
         _data (snd (get key self)) = delete key (_data self))
        /\ ((expires_at <? now)%float = false ->
            fst (get key self) = Ok (Some value) /\
            _data (snd (get key self)) = _data self)
      end)
  /\ (forall (key : str) (v : PyVal) (payload : bytes)
             (self : _InMemoryTokenCache),
         to_payload v = Some payload ->
         let stored_at := time_readings self (time_calls self) in
         let read_at := time_readings self (S (time_calls self)) in
         let self' := snd (setex key 0 v self) in
         ((stored_at <? read_at)%float = true ->
          fst (get key self') = Ok None)
         /\ ((stored_at <? read_at)%float = false ->
             fst (get key self') = Ok (Some payload))).
Proof.
  split.
  - intros key self now. unfold get.
    destruct (_data self !! key) as [[expires_at value]|]; [|done].
    simpl. fold now. split.
    + by intros ->.
    + by intros ->.
  - intros key v payload self Hp stored_at read_at self'.
    subst self'. rewrite (setex_run key 0 0%float v payload self Hp eq_refl).
    simpl. unfold get. simpl. rewrite lookup_insert_eq. simpl.
    fold stored_at read_at. rewrite ltb_add_zero. split.
    + by intros ->.
    + by intros ->.
Qed.

(** ** The refresh *)

(** With a configuration built by the dataclasses alone a forced refresh
    performs the login exchange and then fails on the key: the token is
    dropped and [setex] is not called. *)
Lemma forced_refresh_undeclared {C} `{TokenCache C}
  (self : TokenManager) (w : World C) (token : PyVal) :
  instance_attrs (_cfg self) = [] ->
  login_outcome (session w (sent w) (login_request self)) = Ok token ->
  get_access_token self true w =
  (Raise (AttributeError (class_name (_cfg self)) "cache_key_prefix"),
   after_post w (login_request self)).
Proof.
  intros Hattrs Hout. unfold get_access_token. simpl.
  unfold bind at 1. unfold ret at 1. unfold bind at 1.
  rewrite _login_run, Hout. unfold bind at 1. unfold lift.
  by rewrite (cache_key_undeclared self Hattrs).
Qed.

(** C3. The store after a login uses the manager's key, which reads the
    attribute [cache_key_prefix] of the configuration. For every manager
    whose configuration is one the dataclasses build, every cache backend
    and every world: a forced refresh whose login exchange yields a token
    sends the one request and then raises AttributeError, so the fresh
    token is neither stored ([setex] is not called, the cache is as it was)
    nor returned; a call without forced refresh raises the same error
    before any login exchange. *)
Theorem refresh_not_stored (self : TokenManager) :
  instance_attrs (_cfg self) = [] ->
  forall (C : Type) (backend : TokenCache C) (w : World C),
    (forall token : PyVal,
        login_outcome (session w (sent w) (login_request self)) = Ok token ->
        let r := get_access_token self true w in
        fst r = Raise (AttributeError (class_name (_cfg self))
                         "cache_key_prefix")
        /\ sent (snd r) = sent w ++ [login_request self]
        /\ cache (snd r) = cache w
        /\ cache_calls (snd r) = cache_calls w)
    /\ (let r := get_access_token self false w in
        fst r = Raise (AttributeError (class_name (_cfg self))
                         "cache_key_prefix")
        /\ sent (snd r) = sent w
        /\ cache (snd r) = cache w
        /\ cache_calls (snd r) = cache_calls w).
Proof.
  intros Hattrs C backend w. split.
  - intros token Hout r. subst r.
    by rewrite (forced_refresh_undeclared self w token Hattrs Hout).
  - intros r. subst r. unfold get_access_token. simpl.
    unfold bind at 1 2. unfold lift.
    by rewrite (cache_key_undeclared self Hattrs).
Qed.

(** ** Separation of the keys *)

Lemma Ok_inj {A : Type} (a b : A) : Ok a = Ok b -> a = b.
Proof. by intros [= ->]. Qed.

Lemma colon_split (a b x y : str) :
  colon_free a -> colon_free b ->
  a ++ 58 :: x = b ++ 58 :: y -> a = b /\ x = y.
Proof.
  unfold colon_free. revert b. induction a as [|c a IH]; intros [|c' b] Ha Hb; simpl.
  - by intros [= ->].
  - intros [= <- _]. exfalso. apply Hb. by left.
  - intros [= -> _]. exfalso. apply Ha. by left.
  - intros [= -> E]. apply not_elem_of_cons in Ha as [_ Ha].
    apply not_elem_of_cons in Hb as [_ Hb].
    destruct (IH b Ha Hb E) as [-> ->]. done.
Qed.

Lemma key_suffix_inj (m1 m2 : TokenManager) :
  key_suffix (effective_tenant m1) = key_suffix (effective_tenant m2) ->
  effective_tenant m1 = effective_tenant m2.
Proof.
  destruct (effective_tenant m1) as [t1|], (effective_tenant m2) as [t2|];
    simpl; try done.
  by intros [= ->].
Qed.

Lemma colon_free_suffix (u1 u2 : str) (m1 m2 : TokenManager) :
  colon_free u1 -> colon_free u2 ->
  u1 ++ key_suffix (effective_tenant m1) = u2 ++ key_suffix (effective_tenant m2) ->
  u1 = u2 /\ effective_tenant m1 = effective_tenant m2.
Proof.
  intros H1 H2.
  destruct (effective_tenant m1) as [t1|], (effective_tenant m2) as [t2|]; simpl.
  - change (pystr ":") with [58]. simpl.
    intros E. by destruct (colon_split _ _ _ _ H1 H2 E) as [-> ->].
  - rewrite app_nil_r. intros <-. exfalso. apply H2.
    apply elem_of_app. right. by left.
  - rewrite app_nil_r. intros ->. exfalso. apply H1.
    apply elem_of_app. right. by left.
  - rewrite !app_nil_r. by intros ->.
Qed.

(** C4 (as amended). Managers with the same prefix, user name and tenant
    have the same key (an empty tenant counting as none). With the same
    prefix, managers that differ in the tenant only, or in the user name
    only, have different keys. Keys are injective in prefix, user name and
    tenant when the prefixes and the user names contain no colon. On the
    fallback cache a store under one key leaves the entry of every other key
    as it was. *)
Theorem cache_key_injective (m1 m2 : TokenManager) (v1 v2 : PyVal) :
  getattr_config (_cfg m1) "cache_key_prefix" = Ok v1 ->
  getattr_config (_cfg m2) "cache_key_prefix" = Ok v2 ->
  (py_str v1 = py_str v2 -> _username m1 = _username m2 ->
   effective_tenant m1 = effective_tenant m2 ->
   _cache_key m1 = _cache_key m2)
  /\ (py_str v1 = py_str v2 -> _username m1 = _username m2 ->
      effective_tenant m1 <> effective_tenant m2 ->
      _cache_key m1 <> _cache_key m2)
  /\ (py_str v1 = py_str v2 -> effective_tenant m1 = effective_tenant m2 ->
      _username m1 <> _username m2 ->
      _cache_key m1 <> _cache_key m2)
  /\ (colon_free (py_str v1) -> colon_free (py_str v2) ->
      colon_free (_username m1) -> colon_free (_username m2) ->
      _cache_key m1 = _cache_key m2 ->
      py_str v1 = py_str v2 /\ _username m1 = _username m2 /\
      effective_tenant m1 = effective_tenant m2)
  /\ (forall (k1 k2 : str) (ttl : Z) (v : PyVal) (c : _InMemoryTokenCache),
         _cache_key m1 = Ok k1 -> _cache_key m2 = Ok k2 -> k1 <> k2 ->
         _data (snd (setex k2 ttl v c)) !! k1 = _data c !! k1).
Proof.
  intros Hp1 Hp2.
  rewrite (cache_key_format m1 v1 Hp1), (cache_key_format m2 v2 Hp2).
  assert (pystr ":token:" = 58 :: pystr "token:") as Hsep by reflexivity.
  split; [|split; [|split; [|split]]].
  - by intros -> -> ->.
  - intros -> -> Hne E%Ok_inj. apply Hne, key_suffix_inj.
    by do 3 apply app_inv_head in E.
  - intros -> -> Hne E%Ok_inj. apply Hne.
    do 2 apply app_inv_head in E. by apply app_inv_tail in E.
  - intros F1 F2 G1 G2 E%Ok_inj. rewrite Hsep in E.
    destruct (colon_split _ _ _ _ F1 F2 E) as [Hp E'].
    apply (app_inv_head (pystr "token:")) in E'.
    by destruct (colon_free_suffix _ _ _ _ G1 G2 E').
  - intros k1 k2 ttl v c _ _ Hne. unfold setex.
    destruct (to_payload v); [|done]. simpl.
    destruct (float_of_int ttl); [|done]. simpl.
    by apply lookup_insert_ne.
Qed.

(** ** Reading the token from a 200 response *)

Lemma first_truthy_field_some (d : gmap str PyVal) (v : PyVal) :
  first_truthy_field d = Some v -> truthy v = true.
Proof. intros Hf. by apply find_some in Hf as [_ Hv]. Qed.

(** On a dict the chain of [or] yields the first truthy field, and the value
    of the last field when none is truthy. *)
Lemma token_fields_dict (d : gmap str PyVal) :
  token_fields (PDict d) =
  Ok (match first_truthy_field d with
      | Some v => v
      | None => dict_get d (pystr "AUTH_ACCESS_TOKEN")
      end).
Proof.
  unfold token_fields, first_truthy_field, TOKEN_FIELDS, method_get, or_else.
  cbn [fmap list_fmap find]. unfold dict_get.
  repeat match goal with
  | |- context [truthy (default PNone (d !! ?k))] =>
    destruct (truthy (default PNone (d !! k))) eqn:?; try reflexivity
  end.
Qed.

Lemma read_token_object (resp : Response) (d : gmap str PyVal) :
  json_declared resp = true ->
  json resp = Some (PDict d) ->
  read_token resp =
  match first_truthy_field d with
  | Some v => Ok v
  | None => Raise (SkribbleAuthError NO_TOKEN_MESSAGE)
  end.
Proof.
  unfold json_declared, read_token. intros -> ->.
  rewrite token_fields_dict. cbn [is_str].
  destruct (first_truthy_field d) as [v|] eqn:Hf.
  - apply first_truthy_field_some in Hf. unfold return_token.
    rewrite Hf. cbn [negb]. by rewrite Hf.
  - assert (truthy (dict_get d (pystr "AUTH_ACCESS_TOKEN")) = false) as Hlast.
    { apply (find_none _ _ Hf).
      unfold TOKEN_FIELDS. cbn [fmap list_fmap].
      right. right. right. by left. }
    rewrite Hlast. cbn [negb]. by rewrite Hlast.
Qed.

Lemma login_outcome_200 (resp : Response) :
  status_code resp = 200%Z ->
  login_outcome (Responded resp) = read_token resp.
Proof. intros E. unfold login_outcome. by rewrite E. Qed.

(** When every field before [name] is falsy and [name] holds a truthy
    value, that value is the first truthy field. *)
Lemma first_truthy_field_at (d : gmap str PyVal) (pre post : list str)
  (name : str) :
  TOKEN_FIELDS = pre ++ name :: post ->
  (forall n, n ∈ pre -> truthy (dict_get d n) = false) ->
  truthy (dict_get d name) = true ->
  first_truthy_field d = Some (dict_get d name).
Proof.
  unfold first_truthy_field. intros -> Hpre Hname.
  induction pre as [|n pre IH]; cbn [app fmap list_fmap find].
  - by rewrite Hname.
  - rewrite (Hpre n) by by left. apply IH.
    intros n' Hn'. apply Hpre. by right.
Qed.

(** C6. For a 200 response that declares a JSON content type and whose body
    is a JSON object, the token of the login exchange is the value of the
    first of access_token, token, jwt, AUTH_ACCESS_TOKEN to hold a truthy
    value, and the exchange fails for want of a token when none does. A
    body with both ["token": "a"] and ["access_token": "b"] ([b] not empty)
    yields ["b"]. *)
Theorem token_field_priority (resp : Response) (d : gmap str PyVal) :
  status_code resp = 200%Z ->
  json_declared resp = true ->
  json resp = Some (PDict d) ->
  login_outcome (Responded resp) =
  match first_truthy_field d with
  | Some v => Ok v
  | None => Raise (SkribbleAuthError NO_TOKEN_MESSAGE)
  end
  /\ (forall a b : str,
         d !! pystr "token" = Some (PStr a) ->
         d !! pystr "access_token" = Some (PStr b) ->
         b <> [] ->
         login_outcome (Responded resp) = Ok (PStr b)).
Proof.
  intros Hst Hct Hjs. rewrite (login_outcome_200 _ Hst).
  rewrite (read_token_object _ _ Hct Hjs). split; [done|].
  intros a b _ Hb Hne.
  rewrite (first_truthy_field_at d [] (tail TOKEN_FIELDS) (pystr "access_token")).
  - unfold dict_get. by rewrite Hb.
  - reflexivity.
  - intros n Hn. by apply elem_of_nil in Hn.
  - unfold dict_get. rewrite Hb. by destruct b.
Qed.


(** C7. A 200 response that declares a JSON content type and whose body is
    a JSON string: [_login] calls [data.get] before it looks at the type of
    [data], a [str] has no [get], and the exchange raises AttributeError.
    The branch [isinstance(data, str)] is never reached with a string, and a
    call of [get_access_token] that reaches the exchange raises the same
    error and stores nothing. *)
Theorem login_json_string_raises {C} `{TokenCache C}
  (self : TokenManager) (force_refresh : bool) (w w0 : World C)
  (resp : Response) (s : str) :
  misses self force_refresh w w0 ->
  session w0 (sent w0) (login_request self) = Responded resp ->
  status_code resp = 200%Z ->
  json_declared resp = true ->
  json resp = Some (PStr s) ->
  login_outcome (Responded resp) = Raise (AttributeError "str" "get")
  /\ get_access_token self force_refresh w =
     (Raise (AttributeError "str" "get"), after_post w0 (login_request self)).
Proof.
  intros Hmiss Hpost Hst Hct Hjs.
  assert (login_outcome (Responded resp) = Raise (AttributeError "str" "get"))
    as Hout.
  { rewrite (login_outcome_200 _ Hst). unfold read_token.
    unfold json_declared in Hct. by rewrite Hct, Hjs. }
  split; [done|].
  apply get_access_token_login_raises; [done|]. by rewrite Hpost.
Qed.

(** ** A login that is refused *)

Lemma failure_message_dict (d : gmap str PyVal) (text : str) :
  failure_message (PDict d) text = Ok (error_detail d text).
Proof.
  unfold failure_message, error_detail, method_get, or_else, dict_get.
  by repeat match goal with
  | |- context [truthy (default PNone (d !! ?k))] =>
    destruct (truthy (default PNone (d !! k))) eqn:?
  end.
Qed.

(** C8 (as amended). A call that reaches the login exchange and gets a
    response with a status other than 200 whose body is not JSON, or is a
    JSON object, fails with an HTTP error that carries the status, the
    parsed body (None when it does not parse) and the text, and whose
    message is "Login failed: " followed by the value of "message" when that
    is truthy, else the value of "error" when that is truthy, else the raw
    text. A non-empty string under "message" is the message shown. *)
Theorem login_refused_http_error {C} `{TokenCache C}
  (self : TokenManager) (force_refresh : bool) (w w0 : World C)
  (resp : Response) :
  misses self force_refresh w w0 ->
  session w0 (sent w0) (login_request self) = Responded resp ->
  status_code resp <> 200%Z ->
  (json resp = None ->
   get_access_token self force_refresh w =
   (Raise (SkribbleHTTPError (status_code resp)
             (pystr "Login failed: " ++ text resp) PNone (text resp)),
    after_post w0 (login_request self)))
  /\ (forall d : gmap str PyVal,
         json resp = Some (PDict d) ->
         get_access_token self force_refresh w =
         (Raise (SkribbleHTTPError (status_code resp)
                   (pystr "Login failed: " ++ py_str (error_detail d (text resp)))
                   (PDict d) (text resp)),
          after_post w0 (login_request self)))
  /\ (forall (d : gmap str PyVal) (msg : str),
         json resp = Some (PDict d) ->
         d !! pystr "message" = Some (PStr msg) ->
         msg <> [] ->
         fst (get_access_token self force_refresh w) =
         Raise (SkribbleHTTPError (status_code resp)
                  (pystr "Login failed: " ++ msg) (PDict d) (text resp))).
Proof.
  intros Hmiss Hpost Hst.
  assert (forall e, login_failed resp = e ->
            get_access_token self force_refresh w =
            (Raise e, after_post w0 (login_request self))) as Hfail.
  { intros e He. apply get_access_token_login_raises; [done|].
    rewrite Hpost. unfold login_outcome.
    apply Z.eqb_neq in Hst. by rewrite Hst, He. }
  split; [|split].
  - intros Hjs. apply Hfail. unfold login_failed. by rewrite Hjs.
  - intros d Hjs. apply Hfail. unfold login_failed.
    by rewrite Hjs, failure_message_dict.
  - intros d msg Hjs Hmsg Hne. rewrite (Hfail (login_failed resp) eq_refl).
    unfold login_failed. rewrite Hjs, failure_message_dict.
    unfold error_detail, dict_get. rewrite Hmsg. simpl.
    by destruct msg.
Qed.

(** ** A login that yields no token *)

(** C9 (as amended). A call that reaches the login exchange and gets a 200
    response fails with the AuthError "no access token found" when the
    response declares a JSON content type and its body is a JSON object none
    of whose four fields holds a truthy value (a field holding the empty
    string included), and with the AuthError "access token is empty" when
    the response declares no JSON content type and its text is empty once
    stripped. With the JSON body [{"access_token": ""}] the call fails with
    the first of these errors; the cache is as the lookup left it and
    [setex] is not called. *)
Theorem login_without_token_raises {C} `{TokenCache C}
  (self : TokenManager) (force_refresh : bool) (w w0 : World C)
  (resp : Response) :
  misses self force_refresh w w0 ->
  session w0 (sent w0) (login_request self) = Responded resp ->
  status_code resp = 200%Z ->
  (forall d : gmap str PyVal,
      json_declared resp = true ->
      json resp = Some (PDict d) ->
      first_truthy_field d = None ->
      get_access_token self force_refresh w =
      (Raise (SkribbleAuthError NO_TOKEN_MESSAGE),
       after_post w0 (login_request self)))
  /\ (json_declared resp = false ->
      strip (text resp) = [] ->
      get_access_token self force_refresh w =
      (Raise (SkribbleAuthError EMPTY_TOKEN_MESSAGE),
       after_post w0 (login_request self)))
  /\ (json_declared resp = true ->
      json resp = Some (PDict {[ pystr "access_token" := PStr [] ]}) ->
      get_access_token self force_refresh w =
      (Raise (SkribbleAuthError NO_TOKEN_MESSAGE),
       after_post w0 (login_request self))
      /\ cache (snd (get_access_token self force_refresh w)) = cache w0
      /\ cache_calls (snd (get_access_token self force_refresh w))
         = cache_calls w0).
Proof.
  intros Hmiss Hpost Hst.
  assert (forall e, read_token resp = Raise e ->
            get_access_token self force_refresh w =
            (Raise e, after_post w0 (login_request self))) as Hfail.
  { intros e He. apply get_access_token_login_raises; [done|].
    by rewrite Hpost, (login_outcome_200 _ Hst). }
  assert (forall d : gmap str PyVal,
      json_declared resp = true ->
      json resp = Some (PDict d) ->
      first_truthy_field d = None ->
      get_access_token self force_refresh w =
      (Raise (SkribbleAuthError NO_TOKEN_MESSAGE),
       after_post w0 (login_request self))) as Hnone.
  { intros d Hct Hjs Hf. apply Hfail.
    by rewrite (read_token_object _ _ Hct Hjs), Hf. }
  split; [done|]. split.
  - intros Hct Hstrip. apply Hfail. unfold read_token.
    unfold json_declared in Hct. by rewrite Hct, Hstrip.
  - intros Hct Hjs.
    rewrite (Hnone _ Hct Hjs); [done|]. by vm_compute.
Qed.

End Properties.

Section MoreProperties.

Context `{PyFormat}.

(** ** Every call follows one of the paths *)

Lemma get_access_token_path {C} `{TokenCache C}
  (self : TokenManager) (force_refresh : bool) (w : World C) :
  Path self force_refresh w
    (fst (get_access_token self force_refresh w))
    (snd (get_access_token self force_refresh w)).
Proof.
  assert (forall w0, misses self force_refresh w w0 ->
            Path self force_refresh w
              (fst (get_access_token self force_refresh w))
              (snd (get_access_token self force_refresh w))) as Hmiss.
  { intros w0 Hm.
    destruct (login_outcome (session w0 (sent w0) (login_request self)))
      as [token|e] eqn:Hout.
    - destruct (_cache_key self) as [key|e] eqn:Hkey.
      + destruct (tc_setex key (access_token_ttl_seconds (_cfg self)) token
                    (cache w0)) as [r c1] eqn:Hset.
        rewrite (get_access_token_login_ok self force_refresh w w0 key token r c1 Hm Hkey Hout Hset).
        by eapply path_stored.
      + assert (get_access_token self force_refresh w
                = (Raise e, after_post w0 (login_request self))) as E.
        { rewrite (get_access_token_miss self force_refresh w w0 Hm).
          unfold bind at 1. rewrite _login_run, Hout.
          unfold bind at 1. unfold lift. by rewrite Hkey. }
        rewrite E. by eapply path_store_no_key.
    - rewrite (get_access_token_login_raises self force_refresh w w0 e Hm Hout).
      by eapply path_login_raises. }
  destruct force_refresh; [by apply (Hmiss w)|].
  destruct (_cache_key self) as [key|e] eqn:Hkey.
  - destruct (tc_get key (cache w)) as [[cached|e] c0] eqn:Hget.
    + destruct cached as [[|b0 value]|].
      * apply (Hmiss (after_lookup w key c0)).
        exists key, (Some []), c0. auto.
      * destruct (decode_utf8 (b0 :: value)) as [token|] eqn:Hdec.
        -- rewrite (get_access_token_hit self w key (b0 :: value) token c0
                      Hkey Hget) by done.
           by eapply path_hit.
        -- assert (get_access_token self false w
                   = (Raise UnicodeDecodeError, after_lookup w key c0)) as E.
           { unfold get_access_token. cbn [negb].
             unfold bind at 1 2 3. unfold lift. rewrite Hkey.
             unfold cache_get. rewrite Hget. cbn [truthy]. by rewrite Hdec. }
           rewrite E. by eapply path_undecodable.
      * apply (Hmiss (after_lookup w key c0)).
        exists key, None, c0. auto.
    + assert (get_access_token self false w
              = (Raise e, after_lookup w key c0)) as E.
      { unfold get_access_token. cbn [negb].
        unfold bind at 1 2 3. unfold lift. rewrite Hkey.
        unfold cache_get. by rewrite Hget. }
      rewrite E. by eapply path_get_raises.
  - assert (get_access_token self false w = (Raise e, w)) as E.
    { unfold get_access_token. cbn [negb].
      unfold bind at 1 2. unfold lift. by rewrite Hkey. }
    rewrite E. by eapply path_no_key.
Qed.

Lemma misses_world {C} `{TokenCache C}
  (self : TokenManager) (force_refresh : bool) (w w0 : World C) :
  misses self force_refresh w w0 ->
  sent w0 = sent w /\ session w0 = session w /\
  (cache_calls w0 = cache_calls w \/
   force_refresh = false /\
   exists key, _cache_key self = Ok key /\
               cache_calls w0 = cache_calls w ++ [CallGet key]).
Proof.
  unfold misses. destruct force_refresh.
  - intros ->. auto.
  - intros (key & cached & c0 & Hkey & _ & _ & ->). simpl.
    split; [done|]. split; [done|]. right. eauto.
Qed.

Lemma return_token_truthy (token v : PyVal) :
  return_token token = Ok v -> truthy v = true.
Proof.
  unfold return_token. destruct (truthy token) eqn:Ht; simpl; [|done].
  by intros [= <-].
Qed.

(** What the login exchange yields is never falsy. *)
Lemma login_outcome_truthy (out : PostOutcome) (v : PyVal) :
  login_outcome out = Ok v -> truthy v = true.
Proof.
  destruct out as [resp|exc]; [|done]. unfold login_outcome.
  destruct (negb _); [done|]. unfold read_token.
  destruct (str_in _ _); [|apply return_token_truthy].
  destruct (json resp) as [data|]; [|done].
  destruct (token_fields data) as [token|]; [|done].
  destruct (negb (truthy (if negb (truthy token) then _ else token)));
    [done | apply return_token_truthy].
Qed.

Lemma decode_utf8_nonempty (b0 : byte) (r0 : bytes) (s : str) :
  decode_utf8 (b0 :: r0) = Some s -> s <> [].
Proof.
  cbn [decode_utf8].
  repeat (case_match; try done);
    match goal with
    | |- cons ?c <$> ?o = Some s -> _ => destruct o; simpl; [by intros [= <-] | done]
    end.
Qed.

(** ** What a call never does *)

(** X1. Whatever the cache, the server and the outcome, one call of
    [get_access_token] sends no request or exactly one, the login request;
    the requests sent before are kept and the session is the same. There is
    no retry. *)
Theorem get_access_token_at_most_one_request {C} `{TokenCache C}
  (self : TokenManager) (force_refresh : bool) (w : World C) :
  let w' := snd (get_access_token self force_refresh w) in
  (sent w' = sent w \/ sent w' = sent w ++ [login_request self])
  /\ session w' = session w.
Proof.
  intros w'. subst w'.
  destruct (get_access_token_path self force_refresh w);
    try (split; [by left | done]);
    match goal with
    | Hm : misses _ _ _ _ |- _ =>
      apply misses_world in Hm as (Hs & Hn & _); simpl; rewrite Hs, Hn;
      split; [by right | done]
    end.
Qed.

(** X2. The calls a call of [get_access_token] makes on its cache: at most
    one [get], under the manager's key and never when the refresh is forced,
    then at most one [setex]. [setex] is called only after the call missed,
    a request went out and the login exchange answered with a token, which
    is truthy; it is called with the manager's key, the configured TTL and
    that very token, on the cache as the miss left it. The cache is then as
    this [setex] left it, and the call returns the token of the login
    exchange when [setex] returned, and raises the very exception [setex]
    raised otherwise. *)
Theorem get_access_token_cache_discipline {C} `{TokenCache C}
  (self : TokenManager) (force_refresh : bool) (w : World C) :
  let r := fst (get_access_token self force_refresh w) in
  let w' := snd (get_access_token self force_refresh w) in
  let ttl := access_token_ttl_seconds (_cfg self) in
  exists gets stores : list CacheCall,
    cache_calls w' = cache_calls w ++ gets ++ stores
    /\ (gets = [] \/
        force_refresh = false /\
        exists key, _cache_key self = Ok key /\ gets = [CallGet key])
    /\ (stores = [] \/
        exists (key : str) (token : PyVal) (w0 : World C)
               (out : Result unit) (c1 : C),
          misses self force_refresh w w0 /\
          login_outcome (session w0 (sent w0) (login_request self))
          = Ok token /\
          truthy token = true /\
          _cache_key self = Ok key /\
          stores = [CallSetex key ttl token] /\
          sent w' = sent w ++ [login_request self] /\
          tc_setex key ttl token (cache w0) = (out, c1) /\
          cache w' = c1 /\
          r = match out with Ok _ => Ok token | Raise e => Raise e end).
Proof.
  intros r w' ttl. subst r w' ttl.
  destruct (get_access_token_path self force_refresh w) as
    [e Hf Hk | key e c0 Hf Hk Hg | key value c0 token Hf Hk Hg Hne Hd
     | key value c0 Hf Hk Hg Hne Hd | w0 e Hm Ho | w0 token e Hm Ho Hk
     | w0 token key r c1 Hm Ho Hk Hset].
  - exists [], []. rewrite !app_nil_r. auto.
  - exists [CallGet key], []. simpl.
    split; [done|]. split; [right; eauto | by left].
  - exists [CallGet key], []. simpl.
    split; [done|]. split; [right; eauto | by left].
  - exists [CallGet key], []. simpl.
    split; [done|]. split; [right; eauto | by left].
  - apply misses_world in Hm as (Hs & _ & [Hc | (Hf & key & Hk & Hc)]); simpl.
    + exists [], []. rewrite Hc, !app_nil_r. auto.
    + exists [CallGet key], []. rewrite Hc. simpl.
      split; [done|]. split; [right; eauto | by left].
  - apply misses_world in Hm as (Hs & _ & [Hc | (Hf & key & Hk' & Hc)]); simpl.
    + exists [], []. rewrite Hc, !app_nil_r. auto.
    + congruence.
  - pose proof (login_outcome_truthy _ _ Ho) as Ht.
    assert (sent (after_post w0 (login_request self))
            = sent w ++ [login_request self]) as Hsent.
    { apply misses_world in Hm as (Hs & _). simpl. by rewrite Hs. }
    destruct (misses_world _ _ _ _ Hm)
      as (_ & _ & [Hc | (Hf & key' & Hk' & Hc)]); simpl.
    + exists [], [CallSetex key (access_token_ttl_seconds (_cfg self)) token].
      rewrite Hc. split; [done|]. split; [by left|]. right.
      by exists key, token, w0, r, c1.
    + exists [CallGet key'],
        [CallSetex key (access_token_ttl_seconds (_cfg self)) token].
      rewrite Hc, <- app_assoc. split; [done|].
      split; [right; eauto|]. right.
      by exists key, token, w0, r, c1.
Qed.

(** X3. A call never returns an empty token: every value a call of
    [get_access_token] returns, from the cache or from the login exchange,
    is truthy (for a string: not empty). *)
Theorem get_access_token_never_returns_falsy {C} `{TokenCache C}
  (self : TokenManager) (force_refresh : bool) (w : World C) (v : PyVal) :
  fst (get_access_token self force_refresh w) = Ok v ->
  truthy v = true.
Proof.
  destruct (get_access_token_path self force_refresh w) as
    [e Hf Hk | key e c0 Hf Hk Hg | key value c0 token Hf Hk Hg Hne Hd
     | key value c0 Hf Hk Hg Hne Hd | w0 e Hm Ho | w0 token e Hm Ho Hk
     | w0 token key r c1 Hm Ho Hk Hs]; try done.
  - intros [= <-]. destruct value as [|b0 r0]; [done|].
    apply decode_utf8_nonempty in Hd. by destruct token.
  - destruct r; [|done]. intros [= <-]. by eapply login_outcome_truthy.
Qed.

(** ** More on the fallback cache *)

Lemma get_entries (key : str) (self : _InMemoryTokenCache) :
  _data (snd (get key self)) = _data self
  \/ _data (snd (get key self)) = delete key (_data self).
Proof.
  unfold get. destruct (_data self !! key) as [[e v]|]; simpl; [|by left].
  destruct (_ <? _)%float; simpl; auto.
Qed.

(** X4. [get] never raises, never adds or alters an entry and never touches
    another key: the entries after it are the entries before it, or these
    without the entry of the queried key. *)
Theorem get_keeps_or_deletes (key : str) (self : _InMemoryTokenCache) :
  (exists r, fst (get key self) = Ok r)
  /\ (_data (snd (get key self)) = _data self
      \/ _data (snd (get key self)) = delete key (_data self))
  /\ time_readings (snd (get key self)) = time_readings self.
Proof.
  unfold get. destruct (_data self !! key) as [[e v]|]; simpl.
  - destruct (_ <? _)%float; simpl; eauto.
  - eauto.
Qed.

(** X5. A miss is stable: when [get] returns nothing for a key, the [get]
    that follows returns nothing as well, whatever the clock says, and
    changes nothing; only a [setex] brings the key back. *)
Theorem get_miss_is_stable (key : str) (self : _InMemoryTokenCache) :
  fst (get key self) = Ok None ->
  get key (snd (get key self)) = (Ok None, snd (get key self)).
Proof.
  unfold get at 1 3 4. destruct (_data self !! key) as [[e v]|] eqn:Hk; simpl.
  - destruct (_ <? _)%float; simpl; [|done]. intros _.
    unfold get. simpl. by rewrite lookup_delete_eq.
  - intros _. unfold get. by rewrite Hk.
Qed.

(** X6. The last store wins: of two [setex] on one key, each with a value
    that can be turned into bytes, the second reads the clock once more.
    When its TTL converts to a float, it returns and the cache is as if
    only the second had been made, with the expiry instant the float sum of
    the second reading and the TTL; the payload and the expiry instant of
    the first leave no trace. When its TTL is beyond the range of the
    floats, it raises OverflowError and the entries stay as the first call
    left them. *)
Theorem setex_overwrites (key : str) (ttl1 ttl2 : Z) (v1 v2 : PyVal)
  (p1 p2 : bytes) (self : _InMemoryTokenCache) :
  to_payload v1 = Some p1 ->
  to_payload v2 = Some p2 ->
  let self1 := snd (setex key ttl1 v1 self) in
  let r2 := setex key ttl2 v2 self1 in
  let at2 := time_readings self (S (time_calls self)) in
  match float_of_int ttl2 with
  | Some f2 =>
    fst r2 = Ok tt
    /\ _data (snd r2) = <[key := ((at2 + f2)%float, p2)]> (_data self)
    /\ _data (snd r2) !! key = Some ((at2 + f2)%float, p2)
  | None =>
    fst r2 = Raise OverflowError
    /\ _data (snd r2) = _data self1
  end.
Proof.
  intros Hp1 Hp2 self1 r2 at2.
  assert (time_readings self1 (time_calls self1) = at2
          /\ (_data self1 = _data self
              \/ exists e, _data self1 = <[key := (e, p1)]> (_data self)))
    as [Hat Hd1].
  { subst self1. destruct (float_of_int ttl1) as [f1|] eqn:Hf1.
    - rewrite (setex_run _ _ _ _ _ _ Hp1 Hf1). simpl. eauto.
    - rewrite (setex_overflow _ _ _ _ _ Hp1 Hf1). simpl. eauto. }
  subst r2. destruct (float_of_int ttl2) as [f2|] eqn:Hf2.
  - rewrite (setex_run _ _ _ _ _ _ Hp2 Hf2). simpl. rewrite Hat.
    split; [done|].
    assert (<[key := ((at2 + f2)%float, p2)]> (_data self1)
            = <[key := ((at2 + f2)%float, p2)]> (_data self)) as ->.
    { destruct Hd1 as [-> | [e ->]]; [done|]. by rewrite insert_insert_eq. }
    split; [done|]. by rewrite lookup_insert_eq.
  - by rewrite (setex_overflow _ _ _ _ _ Hp2 Hf2).
Qed.

(** X7. What a [get] right after a successful [setex] on the same key
    returns is the payload that [setex] stored, and it is returned only
    when the expiry instant [setex] computed, the float sum of its clock
    reading and the TTL as a float, is not strictly before the reading of
    [get]. *)
Theorem get_after_setex_sound (key : str) (ttl : Z) (v : PyVal) (p : bytes)
  (self : _InMemoryTokenCache) :
  fst (setex key ttl v self) = Ok tt ->
  fst (get key (snd (setex key ttl v self))) = Ok (Some p) ->
  let stored_at := time_readings self (time_calls self) in
  let read_at := time_readings self (S (time_calls self)) in
  to_payload v = Some p
  /\ exists f, float_of_int ttl = Some f
              /\ (stored_at + f <? read_at)%float = false.
Proof.
  destruct (to_payload v) as [p'|] eqn:Hp.
  - destruct (float_of_int ttl) as [f|] eqn:Hf.
    + rewrite (setex_run _ _ _ _ _ _ Hp Hf). simpl. intros _.
      unfold get. simpl. rewrite lookup_insert_eq. simpl.
      destruct (_ <? _)%float eqn:Hlt; simpl; [done|].
      intros [= ->]. split; [done|]. by exists f.
    + by rewrite (setex_overflow _ _ _ _ _ Hp Hf).
  - by rewrite (setex_unencodable _ _ _ _ Hp).
Qed.

(** X8. A TTL below zero does not always expire the entry: the expiry
    instant is a rounded float sum. With the clock at 2{^54} for the store
    and for the read, the entry stored with a TTL of -1 gets the expiry
    instant 2{^54} and the [get] that follows returns it. *)
Theorem setex_negative_ttl_may_survive (key : str) (b : bytes)
  (d : gmap str (float * bytes)) :
  let self := memory d (fun _ => 18014398509481984%float) in
  fst (setex key (-1) (PBytes b) self) = Ok tt
  /\ _data (snd (setex key (-1) (PBytes b) self)) !! key
     = Some (18014398509481984%float, b)
  /\ fst (get key (snd (setex key (-1) (PBytes b) self))) = Ok (Some b).
Proof.
  intros self.
  rewrite (setex_run key (-1) (-1)%float (PBytes b) b self eq_refl eq_refl).
  simpl. split; [done|]. unfold get. simpl. rewrite lookup_insert_eq.
  split; [done|]. reflexivity.
Qed.

Lemma encode_codepoint_None (c : N) :
  encode_codepoint c = None <-> is_surrogate c = true \/ 0x110000 <= c.
Proof.
  unfold encode_codepoint, is_surrogate.
  destruct (N.ltb_spec c 0x80), (N.ltb_spec c 0x800), (N.ltb_spec c 0x10000),
    (N.ltb_spec c 0x110000), (N.leb_spec 0xD800 c), (N.leb_spec c 0xDFFF);
    simpl; try lia;
    (split; [intros; try done; auto | intros [?|?]; try done; try lia]).
Qed.

Lemma encode_utf8_surrogate (s : str) :
  (forall c, c ∈ s -> c < 0x110000) ->
  encode_utf8 s = None <-> existsb is_surrogate s = true.
Proof.
  induction s as [|c r IH]; intros Hcp; simpl; [done|].
  assert (c < 0x110000) as Hc by (apply Hcp; by left).
  assert (forall c', c' ∈ r -> c' < 0x110000) as Hr
    by (intros c' Hc'; apply Hcp; by right).
  specialize (IH Hr).
  destruct (encode_codepoint c) as [b|] eqn:Ec.
  - assert (is_surrogate c = false) as ->.
    { destruct (is_surrogate c) eqn:Hs; [|done].
      assert (encode_codepoint c = None) by (apply encode_codepoint_None; auto).
      congruence. }
    simpl. destruct (encode_utf8 r); [|by rewrite <- IH].
    split; [done|]. intros Hx. apply IH in Hx. done.
  - apply encode_codepoint_None in Ec as [-> | Hbig]; [done | lia].
Qed.

(** X9. [setex] with a [str] made of code points: it raises
    UnicodeEncodeError exactly when the string holds a surrogate, and then
    leaves the entries and the clock alone. Otherwise, and always with
    [bytes], the outcome depends on the TTL alone: when it converts to a
    float the call returns, [bytes] being stored as they are with the float
    sum of the reading and the TTL as expiry instant; when it is beyond the
    range of the floats the call raises OverflowError and the entries stay
    as they were. *)
Theorem setex_raises_on_surrogates (key : str) (ttl : Z) (s : str) (b : bytes)
  (self : _InMemoryTokenCache) :
  (forall c, c ∈ s -> c < 0x110000) ->
  (if existsb is_surrogate s
   then setex key ttl (PStr s) self = (Raise UnicodeEncodeError, self)
   else match float_of_int ttl with
        | Some _ => fst (setex key ttl (PStr s) self) = Ok tt
        | None =>
          fst (setex key ttl (PStr s) self) = Raise OverflowError
          /\ _data (snd (setex key ttl (PStr s) self)) = _data self
        end)
  /\ match float_of_int ttl with
     | Some f =>
       fst (setex key ttl (PBytes b) self) = Ok tt
       /\ _data (snd (setex key ttl (PBytes b) self)) !! key
          = Some ((time_readings self (time_calls self) + f)%float, b)
     | None =>
       fst (setex key ttl (PBytes b) self) = Raise OverflowError
       /\ _data (snd (setex key ttl (PBytes b) self)) = _data self
     end.
Proof.
  intros Hcp. pose proof (encode_utf8_surrogate s Hcp) as Hs. split.
  - unfold setex, to_payload. cbn [py_str].
    destruct (existsb is_surrogate s).
    + assert (encode_utf8 s = None) as -> by by apply Hs. done.
    + destruct (encode_utf8 s).
      * by destruct (float_of_int ttl).
      * by assert (false = true) by by apply Hs.
  - unfold setex. simpl. destruct (float_of_int ttl); simpl; [|done].
    split; [done|]. by rewrite lookup_insert_eq.
Qed.

Lemma encode_utf8_nonempty (c : N) (r : str) (b : bytes) :
  encode_utf8 (c :: r) = Some b -> b <> [].
Proof.
  simpl. destruct (encode_codepoint c) as [bc|] eqn:Ec; [|done].
  destruct (encode_utf8 r) as [br|]; [|done]. intros [= <-].
  unfold encode_codepoint in Ec.
  repeat case_match; try done; by injection Ec as <-.
Qed.

(** ** Calls that follow one another *)

(** X10. After a refresh that stored a string token in the fallback cache
    (the TTL converting to a float), the expiry instant of the entry is the
    float sum of the clock reading of the store and the TTL. The next call
    without forced refresh returns the same token from the cache and sends
    no request when this instant is not strictly before its clock reading;
    when it is, the call does not find the token and enters the login
    exchange again. *)
Theorem get_access_token_second_call (self : TokenManager)
  (force_refresh : bool) (w w0 : World _InMemoryTokenCache)
  (key token : str) (payload : bytes) (ttl : float) :
  misses self force_refresh w w0 ->
  _cache_key self = Ok key ->
  login_outcome (session w0 (sent w0) (login_request self))
  = Ok (PStr token) ->
  encode_utf8 token = Some payload ->
  float_of_int (access_token_ttl_seconds (_cfg self)) = Some ttl ->
  let stored_at := time_readings (cache w0) (time_calls (cache w0)) in
  let read_at := time_readings (cache w0) (S (time_calls (cache w0))) in
  let w1 := snd (get_access_token self force_refresh w) in
  _data (cache w1) !! key = Some ((stored_at + ttl)%float, payload)
  /\ ((stored_at + ttl <? read_at)%float = false ->
      fst (get_access_token self false w1) = Ok (PStr token)
      /\ sent (snd (get_access_token self false w1)) = sent w1)
  /\ ((stored_at + ttl <? read_at)%float = true ->
      misses self false w1
        (after_lookup w1 key (snd (get key (cache w1))))).
Proof.
  intros Hmiss Hkey Hout Henc Httl stored_at read_at w1.
  pose proof (setex_run key (access_token_ttl_seconds (_cfg self)) ttl
                (PStr token) payload (cache w0) Henc Httl) as Hset.
  pose proof (get_access_token_login_ok self force_refresh w w0 key
                (PStr token) _ _ Hmiss Hkey Hout Hset) as E.
  assert (token <> []) as Htok.
  { apply login_outcome_truthy in Hout. by destruct token. }
  assert (payload <> []) as Hpay.
  { destruct token as [|c r]; [done|]. by eapply encode_utf8_nonempty. }
  assert (_data (cache w1) !! key = Some ((stored_at + ttl)%float, payload))
    as Hk.
  { subst w1. rewrite E. simpl. by rewrite lookup_insert_eq. }
  assert (time_readings (cache w1) (time_calls (cache w1)) = read_at) as Hr.
  { subst w1. by rewrite E. }
  split; [done|]. split.
  - intros Hge.
    rewrite (get_access_token_hit self w1 key payload token
               (snd (get key (cache w1)))); try done.
    + simpl. unfold get. rewrite Hk. simpl. rewrite Hr, Hge. done.
    + by apply decode_encode_utf8.
  - intros Hlt.
    exists key, None, (snd (get key (cache w1))).
    split; [done|]. split; [|by auto].
    simpl. unfold get. rewrite Hk. simpl. rewrite Hr, Hlt. done.
Qed.

(** X11. One cache, two managers with different keys: after the first
    stored its token, a call of the second that had no entry of its own
    still finds nothing under its key and enters the login exchange; it is
    not served the first manager's token. *)
Theorem get_access_token_other_manager_misses (m1 m2 : TokenManager)
  (force_refresh : bool) (w w0 : World _InMemoryTokenCache)
  (k1 k2 : str) (token : PyVal) :
  _cache_key m1 = Ok k1 ->
  _cache_key m2 = Ok k2 ->
  k1 <> k2 ->
  _data (cache w) !! k2 = None ->
  misses m1 force_refresh w w0 ->
  login_outcome (session w0 (sent w0) (login_request m1)) = Ok token ->
  let w1 := snd (get_access_token m1 force_refresh w) in
  misses m2 false w1 (after_lookup w1 k2 (cache w1)).
Proof.
  intros Hk1 Hk2 Hne Hnone Hmiss Hout w1.
  assert (_data (cache w0) !! k2 = None) as Hnone0.
  { destruct force_refresh; simpl in Hmiss.
    - by subst w0.
    - destruct Hmiss as (key & cached & c0 & Hkey & Hget & _ & ->). simpl.
      destruct (get_entries key (cache w)) as [Hd | Hd];
        simpl in Hget; rewrite Hget in Hd; simpl in Hd; rewrite Hd; [done|].
      assert (key = k1) as -> by congruence.
      by rewrite lookup_delete_ne. }
  destruct (setex k1 (access_token_ttl_seconds (_cfg m1)) token (cache w0))
    as [r c1] eqn:Hset.
  pose proof (get_access_token_login_ok m1 force_refresh w w0 k1 token r c1
                Hmiss Hk1 Hout Hset) as E.
  assert (_data (cache w1) !! k2 = None) as Hnone1.
  { subst w1. rewrite E. simpl.
    replace c1 with (snd (setex k1 (access_token_ttl_seconds (_cfg m1)) token
                            (cache w0))) by by rewrite Hset.
    unfold setex. destruct (to_payload token); [|done]. simpl.
    destruct (float_of_int _); [|done]. simpl.
    by rewrite lookup_insert_ne. }
  exists k2, None, (cache w1). split; [done|]. split; [|by auto].
  simpl. unfold get. by rewrite Hnone1.
Qed.

(** ** Failures that pass through *)

(** X12. A transport failure: when the session raises a RequestException,
    the call fails with the AuthError "Failed to call Skribble login
    endpoint: " followed by the description of that failure; the one request
    was attempted, [setex] is not called, and there is no second attempt. *)
Theorem get_access_token_transport_failure {C} `{TokenCache C}
  (self : TokenManager) (force_refresh : bool) (w w0 : World C) (exc : str) :
  misses self force_refresh w w0 ->
  session w0 (sent w0) (login_request self) = RequestException exc ->
  get_access_token self force_refresh w =
  (Raise (SkribbleAuthError
            (pystr "Failed to call Skribble login endpoint: " ++ exc)),
   after_post w0 (login_request self)).
Proof.
  intros Hmiss Hpost. apply get_access_token_login_raises; [done|].
  by rewrite Hpost.
Qed.

(** X13. A 200 response that declares a JSON content type and whose body
    does not parse: the JSONDecodeError of [resp.json()] leaves the call as
    it is (it is not turned into an AuthError), and nothing is stored. *)
Theorem get_access_token_unparsable_json {C} `{TokenCache C}
  (self : TokenManager) (force_refresh : bool) (w w0 : World C)
  (resp : Response) :
  misses self force_refresh w w0 ->
  session w0 (sent w0) (login_request self) = Responded resp ->
  status_code resp = 200%Z ->
  json_declared resp = true ->
  json resp = None ->
  get_access_token self force_refresh w =
  (Raise JSONDecodeError, after_post w0 (login_request self)).
Proof.
  intros Hmiss Hpost Hst Hct Hjs. apply get_access_token_login_raises; [done|].
  rewrite Hpost, (login_outcome_200 _ Hst). unfold read_token.
  unfold json_declared in Hct. by rewrite Hct, Hjs.
Qed.

(** X14. A body that parses to JSON but not to an object (null, a boolean,
    a number, a string, a list), on a response with a status other than 200
    or on a 200 response that declares a JSON content type: [data.get]
    raises AttributeError, naming the type of the body; the call fails with
    it and nothing is stored. *)
Theorem get_access_token_json_not_object {C} `{TokenCache C}
  (self : TokenManager) (force_refresh : bool) (w w0 : World C)
  (resp : Response) (data : PyVal) :
  misses self force_refresh w w0 ->
  session w0 (sent w0) (login_request self) = Responded resp ->
  status_code resp <> 200%Z \/ json_declared resp = true ->
  json resp = Some data ->
  (forall d, data <> PDict d) ->
  get_access_token self force_refresh w =
  (Raise (AttributeError (type_name data) "get"),
   after_post w0 (login_request self)).
Proof.
  intros Hmiss Hpost Hwhich Hjs Hnd.
  apply get_access_token_login_raises; [done|]. rewrite Hpost.
  unfold login_outcome.
  destruct (Z.eqb_spec (status_code resp) 200) as [Hst|Hst]; cbn [negb].
  - destruct Hwhich as [Hne | Hct]; [done|].
    unfold read_token. unfold json_declared in Hct. rewrite Hct, Hjs.
    destruct data; try done. by destruct (Hnd d).
  - unfold login_failed. rewrite Hjs.
    destruct data; try done. by destruct (Hnd d).
Qed.

(** X15. Cached bytes that are not UTF-8: a call without forced refresh
    fails with UnicodeDecodeError. It does not fall back on the login
    exchange: no request is sent and the cache is not written. *)
Theorem get_access_token_undecodable_cache {C} `{TokenCache C}
  (self : TokenManager) (w : World C) (key : str) (value : bytes) (c0 : C) :
  _cache_key self = Ok key ->
  tc_get key (cache w) = (Ok (Some value), c0) ->
  value <> [] ->
  decode_utf8 value = None ->
  get_access_token self false w =
  (Raise UnicodeDecodeError, after_lookup w key c0).
Proof.
  intros Hkey Hget Hne Hdec. unfold get_access_token. cbn [negb].
  unfold bind at 1 2 3. unfold lift. rewrite Hkey.
  unfold cache_get. rewrite Hget.
  destruct value as [|b0 r0]; [done|]. cbn [truthy]. by rewrite Hdec.
Qed.

(** X16. Failures of the cache backend are not caught. When [get] raises,
    the call fails with that exception and sends no request. When [setex]
    raises after a login that yielded a token, the call fails with that
    exception although the request went out: the token is not returned. *)
Theorem get_access_token_backend_failure {C} `{TokenCache C}
  (self : TokenManager) (key : str) (e : PyExn) :
  _cache_key self = Ok key ->
  (forall (w : World C) (c0 : C),
      tc_get key (cache w) = (Raise e, c0) ->
      get_access_token self false w = (Raise e, after_lookup w key c0))
  /\ (forall (force_refresh : bool) (w w0 : World C) (token : PyVal) (c1 : C),
         misses self force_refresh w w0 ->
         login_outcome (session w0 (sent w0) (login_request self)) = Ok token ->
         tc_setex key (access_token_ttl_seconds (_cfg self)) token (cache w0)
         = (Raise e, c1) ->
         get_access_token self force_refresh w =
         (Raise e,
          after_store (after_post w0 (login_request self))
            key (access_token_ttl_seconds (_cfg self)) token c1)).
Proof.
  intros Hkey. split.
  - intros w c0 Hget. unfold get_access_token. cbn [negb].
    unfold bind at 1 2 3. unfold lift. rewrite Hkey.
    unfold cache_get. by rewrite Hget.
  - intros force_refresh w w0 token c1 Hmiss Hout Hset.
    by rewrite (get_access_token_login_ok self force_refresh w w0 key token
                  (Raise e) c1 Hmiss Hkey Hout Hset).
Qed.

(** ** The attribute the key is read from *)

(** X17. Whatever the values of its declared fields, a configuration
    computes a key only if it carries an attribute [cache_key_prefix] beside
    them: with that attribute the key is the attribute's text, then
    [":token:"], the user name and the tenant suffix; without it
    [_cache_key] raises AttributeError, which names the class of the
    configuration ([SkribbleConfig], [SkribbleEUConfig]) and the attribute,
    and a forced refresh whose login yields a token still fails with it,
    after the request, storing nothing. *)
Theorem cache_key_needs_attribute (self : TokenManager) :
  match assoc "cache_key_prefix" (instance_attrs (_cfg self)) with
  | Some prefix =>
    _cache_key self =
    Ok (py_str prefix ++ pystr ":token:" ++ _username self
        ++ key_suffix (effective_tenant self))
  | None =>
    _cache_key self
    = Raise (AttributeError (class_name (_cfg self)) "cache_key_prefix")
    /\ forall (C : Type) (backend : TokenCache C) (w : World C) (token : PyVal),
        login_outcome (session w (sent w) (login_request self)) = Ok token ->
        get_access_token self true w =
        (Raise (AttributeError (class_name (_cfg self)) "cache_key_prefix"),
         after_post w (login_request self))
  end.
Proof.
  assert (getattr_config (_cfg self) "cache_key_prefix" =
          match assoc "cache_key_prefix" (instance_attrs (_cfg self)) with
          | Some v => Ok v
          | None =>
            Raise (AttributeError (class_name (_cfg self)) "cache_key_prefix")
          end) as Hattr by reflexivity.
  destruct (assoc "cache_key_prefix" (instance_attrs (_cfg self))) as [v|].
  - by apply cache_key_format.
  - assert (_cache_key self
            = Raise (AttributeError (class_name (_cfg self))
                       "cache_key_prefix")) as Hk.
    { unfold _cache_key. by rewrite Hattr. }
    split; [done|]. intros C backend w token Hout.
    rewrite (get_access_token_miss self true w w eq_refl).
    unfold bind at 1. rewrite _login_run, Hout.
    unfold bind at 1. unfold lift. by rewrite Hk.
Qed.

(** ** The token of a plain-text response *)

Lemma lstrip_split (s : str) :
  exists pre, s = pre ++ lstrip s /\ Forall (fun c => is_space c = true) pre.
Proof.
  induction s as [|c r (pre & E & Hpre)]; simpl.
  - by exists [].
  - destruct (is_space c) eqn:Hc.
    + exists (c :: pre). split; [simpl; congruence | by constructor].
    + by exists [].
Qed.

Lemma lstrip_head (s : str) (c : N) (r : str) :
  lstrip s = c :: r -> is_space c = false.
Proof.
  induction s as [|c' r' IH]; simpl; [done|].
  destruct (is_space c') eqn:Hc; [done|]. by intros [= <- _].
Qed.

(** X18. A 200 response that declares no JSON content type: the token is
    the text of the response without the white space around it. The text is
    white space, the token, white space; the token neither begins nor ends
    with white space; and when it is not empty it is what the login exchange
    yields. *)
Theorem login_plain_text_token (resp : Response) :
  status_code resp = 200%Z ->
  json_declared resp = false ->
  let token := strip (text resp) in
  (token <> [] -> login_outcome (Responded resp) = Ok (PStr token))
  /\ (exists pre post,
         text resp = pre ++ token ++ post /\
         Forall (fun c => is_space c = true) pre /\
         Forall (fun c => is_space c = true) post)
  /\ (forall c r, token = c :: r -> is_space c = false)
  /\ (forall r c, token = r ++ [c] -> is_space c = false).
Proof.
  intros Hst Hct token.
  destruct (lstrip_split (text resp)) as (pre & Epre & Hpre).
  destruct (lstrip_split (rev (lstrip (text resp)))) as (q & Eq & Hq).
  assert (lstrip (text resp) = token ++ rev q) as Ea.
  { rewrite <- (rev_involutive (lstrip (text resp))). rewrite Eq at 1.
    by rewrite rev_app_distr. }
  split; [|split; [|split]].
  - intros Hne. rewrite (login_outcome_200 _ Hst). unfold read_token.
    unfold json_declared in Hct. rewrite Hct. fold token.
    unfold return_token. by destruct token.
  - exists pre, (rev q). split; [by rewrite <- Ea|].
    split; [done | by apply Forall_rev].
  - intros c r Ec. rewrite Ec in Ea. simpl in Ea. by eapply lstrip_head.
  - intros r c Ec.
    assert (lstrip (rev (lstrip (text resp))) = c :: rev r) as El.
    { rewrite <- (rev_involutive (lstrip (rev (lstrip (text resp))))).
      fold (strip (text resp)). fold token. rewrite Ec, rev_app_distr. done. }
    by eapply lstrip_head.
Qed.

End MoreProperties.

(** ** The requests of the resource clients *)

Lemma fill_lookup (fields : list (str * PyVal)) (body : gmap str PyVal)
  (k : str) :
  fill body fields !! k =
  match given fields k with
  | Some v => Some v
  | None => body !! k
  end.
Proof.
  revert body. induction fields as [|[n v] rest IH]; intros body; [done|].
  unfold fill in *. cbn [foldl given]. rewrite IH.
  destruct (given rest k); [done|]. unfold set_unless_none. simpl.
  destruct (is_none v); simpl; [by rewrite andb_false_r|].
  rewrite andb_true_r. case_bool_decide as Hn.
  - subst. by rewrite lookup_insert_eq.
  - by rewrite lookup_insert_ne.
Qed.

Lemma update_lookup (body extra : gmap str PyVal) (k : str) :
  update body extra !! k =
  match extra !! k with
  | Some v => Some v
  | None => body !! k
  end.
Proof.
  unfold update. rewrite lookup_union.
  destruct (extra !! k), (body !! k); done.
Qed.

Ltac decide_by_compute :=
  apply (bool_decide_unpack _); vm_compute; exact I.

Lemma given_NoDup (fields : list (str * PyVal)) (n : str) (v : PyVal) :
  NoDup fields.*1 ->
  (n, v) ∈ fields ->
  given fields n = if is_none v then None else Some v.
Proof.
  induction fields as [|[n' v'] rest IH]; intros Hnd Hin.
  - by apply elem_of_nil in Hin.
  - cbn [fmap list_fmap] in Hnd. apply NoDup_cons in Hnd as [Hnot Hnd].
    cbn [given]. apply elem_of_cons in Hin as [[= <- <-] | Hin].
    + assert (given rest n = None) as ->.
      { clear IH Hnd. induction rest as [|[m u] rest IH]; [done|].
        cbn [fmap list_fmap] in Hnot. apply not_elem_of_cons in Hnot as [Hne Hnot].
        cbn [given]. rewrite (IH Hnot).
        rewrite bool_decide_eq_false_2; [done | by intros E; apply Hne]. }
      rewrite bool_decide_eq_true_2 by done. by destruct (is_none v).
    + rewrite (IH Hnd Hin). destruct (is_none v) eqn:Hv; [|done].
      rewrite bool_decide_eq_false_2; [done|].
      intros ->. apply Hnot. apply list_elem_of_fmap. by exists (n, v).
Qed.

Lemma given_not_listed (fields : list (str * PyVal)) (k : str) :
  k ∉ fields.*1 -> given fields k = None.
Proof.
  induction fields as [|[n v] rest IH]; [done|].
  cbn [fmap list_fmap given]. intros [Hne Hnot]%not_elem_of_cons.
  rewrite (IH Hnot). rewrite bool_decide_eq_false_2; [done | by intros E; apply Hne].
Qed.

Import SignatureRequestsClient.

(** X19. [create] passes its check exactly when one of [content],
    [file_url], [document_id] is not None and the two others are None; an
    empty string counts as given. Otherwise it raises SkribbleError before
    any request; when it passes it issues one POST to
    ["/signature-requests"] with a JSON object. *)
Theorem create_exactly_one_source (a : CreateArgs) (extra : gmap str PyVal) :
  match is_none (content a), is_none (file_url a), is_none (document_id a) with
  | false, true, true | true, false, true | true, true, false =>
    create a extra =
    Called {| call_method := pystr "POST";
              call_path := pystr "/signature-requests";
              call_json := Some (PDict (create_body a extra));
              call_params := None; call_expected_status := None;
              call_management := None; call_auth := None |}
  | _, _, _ => create a extra = SkribbleError EXACTLY_ONE_MESSAGE
  end.
Proof.
  unfold create, source_fields. cbn [List.filter snd].
  destruct (is_none (content a)), (is_none (file_url a)),
    (is_none (document_id a)); reflexivity.
Qed.





Lemma truthy_not_none (v : PyVal) : truthy v = true -> is_none v = false.
Proof. by destruct v. Qed.

(** X22. [add_signer] raises SkribbleError, before any request, exactly when
    [account_email] and [signer_identity_data] are both falsy (None, the
    empty string, the empty dict). Otherwise it posts to the signatures of
    the request a body in which each of the two is there when it is not
    None, also when it is falsy, and at least one of the two is truthy
    (the keys of [extra_fields] not being parameter names). *)
Theorem add_signer_requires_identification (signature_request_id : str)
  (email identity_data : PyVal) (extra : gmap str PyVal) :
  extra !! pystr "account_email" = None ->
  extra !! pystr "signer_identity_data" = None ->
  if truthy email || truthy identity_data then
    exists body,
      add_signer signature_request_id email identity_data extra =
      Called {| call_method := pystr "POST";
                call_path := pystr "/signature-requests/"
                             ++ signature_request_id ++ pystr "/signatures";
                call_json := Some (PDict body);
                call_params := None; call_expected_status := None;
                call_management := None; call_auth := None |}
      /\ body !! pystr "account_email"
         = (if is_none email then None else Some email)
      /\ body !! pystr "signer_identity_data"
         = (if is_none identity_data then None else Some identity_data)
      /\ ((exists v, body !! pystr "account_email" = Some v /\ truthy v = true)
          \/ (exists v, body !! pystr "signer_identity_data" = Some v
                        /\ truthy v = true))
  else
    add_signer signature_request_id email identity_data extra
    = SkribbleError AT_LEAST_ONE_MESSAGE.
Proof.
  intros He Hi. unfold add_signer.
  set (fields := [(pystr "account_email", email);
                  (pystr "signer_identity_data", identity_data)]).
  assert (NoDup fields.*1) as Hnd by decide_by_compute.
  assert (given fields (pystr "account_email")
          = if is_none email then None else Some email) as Ge
    by (apply given_NoDup; [done | by left]).
  assert (given fields (pystr "signer_identity_data")
          = if is_none identity_data then None else Some identity_data) as Gi
    by (apply given_NoDup; [done | right; by left]).
  destruct (truthy email) eqn:Hte, (truthy identity_data) eqn:Hti;
    cbn [negb andb orb]; try reflexivity.
  all: eexists; split; [reflexivity|].
  all: rewrite !update_lookup, He, Hi, !fill_lookup, Ge, Gi, lookup_empty.
  all: rewrite ?lookup_empty.
  all: split; [by destruct (is_none email)|].
  all: split; [by destruct (is_none identity_data)|].
  - left. exists email. by rewrite (truthy_not_none _ Hte).
  - left. exists email. by rewrite (truthy_not_none _ Hte).
  - right. exists identity_data. by rewrite (truthy_not_none _ Hti).
Qed.

(** X23. [withdraw] never sends an empty JSON object: without a message the
    JSON argument is None, with a message, the empty string included, it is
    the object holding that message. *)
Theorem withdraw_body (signature_request_id : str) (message : PyVal) :
  call_json (withdraw signature_request_id message)
  = Some (if is_none message then PNone
          else PDict {[ pystr "message" := message ]})
  /\ call_json (withdraw signature_request_id message) <> Some (PDict ∅).
Proof.
  unfold withdraw. cbn [call_json].
  assert (forall m : PyVal,
            truthy (PDict {[ pystr "message" := m ]}) = true) as Hne.
  { intros m. cbn [truthy]. rewrite bool_decide_eq_false_2; [done|].
    apply insert_non_empty. }
  assert (truthy (PDict (∅ : gmap str PyVal)) = false) as He.
  { cbn [truthy]. by rewrite bool_decide_eq_true_2. }
  destruct (is_none message) eqn:Hm; cbn [negb].
  - by rewrite He.
  - rewrite Hne. split; [done|]. intros E.
    assert ({[ pystr "message" := message ]} = (∅ : gmap str PyVal)) as E'
      by congruence.
    exact (map_non_empty_singleton (pystr "message") message E').
Qed.

Lemma sep_split (sep : N) (a b x y : str) :
  sep ∉ a -> sep ∉ b ->
  a ++ sep :: x = b ++ sep :: y -> a = b /\ x = y.
Proof.
  revert b. induction a as [|c a IH]; intros [|c' b] Ha Hb; simpl.
  - by intros [= ->].
  - intros [= <- _]. exfalso. apply Hb. by left.
  - intros [= -> _]. exfalso. apply Ha. by left.
  - intros [= -> E]. apply not_elem_of_cons in Ha as [_ Ha].
    apply not_elem_of_cons in Hb as [_ Hb].
    destruct (IH b Ha Hb E) as [-> ->]. done.
Qed.

(** X24. The identifiers are put into the path as they are. When the
    request identifiers hold no ["/"], the paths of [remove_signer] and of
    [remove_attachment] determine the request and the signer, or the
    attachment, and a path of the one is never a path of the other. *)
Theorem two_id_paths_injective (sr1 sr2 id1 id2 : str) :
  slash_free sr1 -> slash_free sr2 ->
  (call_path (remove_signer sr1 id1) = call_path (remove_signer sr2 id2) ->
   sr1 = sr2 /\ id1 = id2)
  /\ (call_path (remove_attachment sr1 id1)
      = call_path (remove_attachment sr2 id2) ->
      sr1 = sr2 /\ id1 = id2)
  /\ call_path (remove_signer sr1 id1) <> call_path (remove_attachment sr2 id2).
Proof.
  intros H1 H2. unfold remove_signer, remove_attachment. cbn [call_path].
  assert (pystr "/signatures/" = 47 :: pystr "signatures/") as Es by reflexivity.
  assert (pystr "/attachments/" = 47 :: pystr "attachments/") as Ea
    by reflexivity.
  rewrite Es, Ea. split; [|split].
  - intros E. apply app_inv_head in E.
    destruct (sep_split _ _ _ _ _ H1 H2 E) as [-> E'].
    by apply (app_inv_head (pystr "signatures/")) in E'.
  - intros E. apply app_inv_head in E.
    destruct (sep_split _ _ _ _ _ H1 H2 E) as [-> E'].
    by apply (app_inv_head (pystr "attachments/")) in E'.
  - intros E. apply app_inv_head in E.
    destruct (sep_split _ _ _ _ _ H1 H2 E) as [_ E'].
    by vm_compute in E'.
Qed.

Import MonitoringClient.

(** X25. The wrapper [create_signature_request_with_callbacks] always hands
    its [content] to [create]: with a content that is not None it raises
    SkribbleError exactly when its extra keywords hold a [file_url] or a
    [document_id] that is not None; otherwise it issues the request of
    [create], whose body holds the content, the callbacks when they are not
    None, and every extra keyword that is no parameter of [create]. *)
Theorem wrapper_outcome (title content signatures callbacks : PyVal)
  (extra : gmap str PyVal) :
  is_none content = false ->
  if is_none (keyword extra "file_url") && is_none (keyword extra "document_id")
  then
    exists c body,
      create_signature_request_with_callbacks title content signatures
        callbacks extra = Called c
      /\ call_method c = pystr "POST"
      /\ call_path c = pystr "/signature-requests"
      /\ call_json c = Some (PDict body)
      /\ body !! pystr "content" = Some content
      /\ body !! pystr "callbacks"
         = (if is_none callbacks then None else Some callbacks)
      /\ (forall k, k ∉ CREATE_PARAMETERS -> body !! k = extra !! k)
  else
    create_signature_request_with_callbacks title content signatures
      callbacks extra = SkribbleError EXACTLY_ONE_MESSAGE.
Proof.
  intros Hc. unfold create_signature_request_with_callbacks.
  unfold create, source_fields.
  cbn [SignatureRequestsClient.content file_url document_id List.filter snd].
  rewrite Hc. cbn [List.filter snd negb].
  destruct (is_none (keyword extra "file_url")),
    (is_none (keyword extra "document_id")); cbn [andb]; try done.
  set (a := {| SignatureRequestsClient.title := title |}).
  set (rest := filter _ extra).
  assert (forall k, k ∈ CREATE_PARAMETERS -> rest !! k = None) as Hdisj.
  { intros k Hk. subst rest. apply map_lookup_filter_None. right.
    intros v _. simpl. tauto. }
  assert (NoDup (create_fields a).*1) as Hnd by decide_by_compute.
  eexists _, _. split; [reflexivity|]. cbn [call_method call_path call_json].
  split; [done|]. split; [done|]. split; [done|].
  unfold create_body. split; [|split].
  - rewrite update_lookup, Hdisj by decide_by_compute.
    rewrite fill_lookup, (given_NoDup _ _ content Hnd) by (by left).
    by rewrite Hc.
  - rewrite update_lookup, Hdisj by decide_by_compute.
    rewrite fill_lookup, (given_NoDup _ _ callbacks Hnd)
      by (do 5 right; by left).
    destruct (is_none callbacks); [|done].
    by rewrite !lookup_insert_ne, lookup_empty by decide_by_compute.
  - intros k Hk.
    assert (k <> pystr "title" /\ k <> pystr "signatures"
            /\ k ∉ (create_fields a).*1) as (Ht & Hs & Hf).
    { change CREATE_PARAMETERS with
        (pystr "title" :: pystr "signatures" :: (create_fields a).*1) in Hk.
      apply not_elem_of_cons in Hk as [Ht Hk].
      by apply not_elem_of_cons in Hk as [Hs Hk]. }
    rewrite update_lookup, fill_lookup, (given_not_listed _ _ Hf).
    rewrite !lookup_insert_ne, lookup_empty by done.
    subst rest. destruct (extra !! k) as [v|] eqn:Hv.
    + by rewrite (proj2 (map_lookup_filter_Some _ extra k v)).
    + assert (filter (fun kv : str * PyVal => kv.1 ∉ CREATE_PARAMETERS)
                extra !! k = None) as ->; [|done].
      apply map_lookup_filter_None. by left.
Qed.

(** * Examples *)

#[local] Existing Instance repr_unused.

(** ** C2: a cached token is not served under the default configuration *)

(** The cache holds a live token under [skribble:token:alice]; the manager
    built on [SkribbleConfig()] fails before it looks. *)
Lemma cached_token_not_served_witness :
  let self := manager SkribbleConfig_default "alice" None in
  let w := world (memory {[ alice_key := (100%float, tok123) ]} (ticking 1))
                 token_response in
  fst (get alice_key (cache w)) = Ok (Some tok123)
  /\ get_access_token self false w
     = (Raise (AttributeError "SkribbleConfig" "cache_key_prefix"), w).
Proof.
  intros self w. split; [reflexivity|].
  exact (cached_token_not_served self eq_refl _ _ w).
Defined.

(** ** C3: the token of a refresh is not stored under the default
    configuration *)

(** The cache holds [old]; the server answers the login with [tok123]; the
    forced refresh of a manager built on [SkribbleConfig()] sends the
    request, raises, and leaves [old] in the cache. *)
Lemma refresh_not_stored_witness :
  let self := manager SkribbleConfig_default "alice" None in
  let w := world (memory {[ alice_key := (100%float, [x6f; x6c; x64]) ]}
                    (ticking 1))
                 token_response in
  login_outcome (session w (sent w) (login_request self))
  = Ok (PStr (pystr "tok123"))
  /\ fst (get_access_token self true w)
     = Raise (AttributeError "SkribbleConfig" "cache_key_prefix")
  /\ sent (snd (get_access_token self true w)) = [login_request self]
  /\ cache (snd (get_access_token self true w)) = cache w
  /\ cache_calls (snd (get_access_token self true w)) = [].
Proof.
  intros self w. split; [reflexivity|].
  exact (proj1 (refresh_not_stored self eq_refl _ _ w)
           (PStr (pystr "tok123")) eq_refl).
Defined.

(** ** C4: keys that coincide *)

Lemma cache_key_collision :
  let m1 := manager (prefixed_config (pystr "skribble")) "a:b" None in
  let m2 := manager (prefixed_config (pystr "skribble")) "a" (Some (pystr "b")) in
  _username m1 <> _username m2
  /\ _tenant_id m1 <> _tenant_id m2
  /\ _cache_key m1 = Ok (pystr "skribble:token:a:b")
  /\ _cache_key m2 = Ok (pystr "skribble:token:a:b").
Proof. repeat split; (discriminate || reflexivity). Qed.

Lemma cache_key_injective_witness :
  let m1 := manager (prefixed_config (pystr "skribble")) "alice" (Some (pystr "t1")) in
  let m2 := manager (prefixed_config (pystr "skribble")) "alice" (Some (pystr "t2")) in
  _cache_key m1 <> _cache_key m2.
Proof.
  intros m1 m2.
  destruct (cache_key_injective m1 m2 (PStr (pystr "skribble"))
              (PStr (pystr "skribble")) eq_refl eq_refl)
    as (_ & Htenant & _).
  apply Htenant; [reflexivity | reflexivity | discriminate].
Defined.

(** ** C5: an entry read at its expiry instant *)

Lemma get_at_expiry_instant_returns_entry :
  let c0 := memory ∅ (fun _ => 7%float) in
  let c1 := snd (setex alice_key 0 (PBytes tok123) c0) in
  let now := time_readings c1 (time_calls c1) in
  (exists expires_at,
      _data c1 !! alice_key = Some (expires_at, tok123)
      /\ (expires_at <=? now)%float = true)
  /\ fst (get alice_key c1) = Ok (Some tok123).
Proof.
  split.
  - exists 7%float. split; reflexivity.
  - reflexivity.
Qed.

Lemma get_lazy_expiry_witness :
  let c := memory {[ alice_key := (100%float, tok123) ]}
             (fun _ => 101%float) in
  fst (get alice_key c) = Ok None
  /\ fst (get alice_key (snd (setex alice_key 0 (PBytes tok123)
                                (memory ∅ (ticking 1))))) = Ok None.
Proof.
  intros c. destruct get_lazy_expiry as [Hget Hzero]. split.
  - pose proof (Hget alice_key c) as Hc.
    change (_data c !! alice_key) with (Some (100%float, tok123)) in Hc.
    apply Hc. reflexivity.
  - apply (Hzero alice_key (PBytes tok123) tok123 (memory ∅ (ticking 1)) eq_refl).
    reflexivity.
Defined.

(** ** C6, C10: the priority of the fields *)

Lemma token_field_priority_witness :
  login_outcome (Responded (json_response 200 (PDict both_fields)))
  = Ok (PStr (pystr "b")).
Proof.
  apply (proj2 (token_field_priority (json_response 200 (PDict both_fields))
                  both_fields eq_refl eq_refl eq_refl) (pystr "a") (pystr "b"));
    [reflexivity | reflexivity | discriminate].
Defined.


(** ** C7: a JSON string as body *)

Lemma login_json_string_raises_witness :
  let w := empty_world 1 (json_response 200 (PStr (pystr "tok123"))) in
  get_access_token alice true w =
  (Raise (AttributeError "str" "get"), after_post w (login_request alice)).
Proof.
  intros w.
  refine (proj2 (login_json_string_raises alice true w w _ (pystr "tok123")
                   eq_refl eq_refl eq_refl eq_refl eq_refl)).
Defined.

(** ** C8: a refused login *)

Lemma login_refused_http_error_witness :
  let d : gmap str PyVal :=
    {[ pystr "message" := PStr (pystr "bad credentials") ]} in
  let w := empty_world 1 (json_response 401 (PDict d)) in
  fst (get_access_token alice true w) =
  Raise (SkribbleHTTPError 401 (pystr "Login failed: bad credentials")
           (PDict d) []).
Proof.
  intros d w.
  destruct (login_refused_http_error alice true w w
              (json_response 401 (PDict d)) eq_refl eq_refl)
    as (_ & _ & Hmsg).
  - discriminate.
  - apply (Hmsg d (pystr "bad credentials")); [reflexivity | reflexivity | discriminate].
Defined.

(** The field "message" is there, empty, and the message is built from
    "error". *)
Lemma empty_message_field_is_skipped :
  let d : gmap str PyVal :=
    {[ pystr "message" := PStr []; pystr "error" := PStr (pystr "boom") ]} in
  let w := empty_world 1 (json_response 401 (PDict d)) in
  d !! pystr "message" = Some (PStr [])
  /\ fst (get_access_token alice true w) =
     Raise (SkribbleHTTPError 401 (pystr "Login failed: boom") (PDict d) []).
Proof. split; reflexivity. Qed.

(** ** C9: a login without a token *)

Lemma login_without_token_raises_witness :
  let w := empty_world 1
             (json_response 200 (PDict {[ pystr "access_token" := PStr [] ]})) in
  get_access_token alice true w =
  (Raise (SkribbleAuthError NO_TOKEN_MESSAGE), after_post w (login_request alice)).
Proof.
  intros w.
  destruct (login_without_token_raises alice true w w
              (json_response 200 (PDict {[ pystr "access_token" := PStr [] ]}))
              eq_refl eq_refl eq_refl)
    as (_ & _ & Hempty).
  apply Hempty; reflexivity.
Defined.

(** The token read from the body is the empty string, and the error is the
    one for a missing token. *)
Lemma empty_token_reported_as_missing :
  let d : gmap str PyVal := {[ pystr "AUTH_ACCESS_TOKEN" := PStr [] ]} in
  let w := empty_world 1 (json_response 200 (PDict d)) in
  token_fields (PDict d) = Ok (PStr [])
  /\ fst (_login alice w) = Raise (SkribbleAuthError NO_TOKEN_MESSAGE)
  /\ NO_TOKEN_MESSAGE <> EMPTY_TOKEN_MESSAGE.
Proof. repeat split; (discriminate || reflexivity). Qed.

(** ** Further examples *)

Lemma get_access_token_never_returns_falsy_witness :
  truthy (PStr (pystr "tok123")) = true.
Proof.
  apply (get_access_token_never_returns_falsy alice false
           (empty_world 1 token_response)).
  reflexivity.
Defined.

Lemma get_miss_is_stable_witness :
  let c := memory {[ alice_key := (0%float, tok123) ]} (ticking 1) in
  fst (get alice_key (snd (get alice_key (snd (get alice_key c))))) = Ok None.
Proof.
  intros c.
  rewrite (get_miss_is_stable alice_key (snd (get alice_key c))); reflexivity.
Defined.

Lemma setex_overwrites_witness :
  let c := memory ∅ (ticking 1) in
  _data (snd (setex alice_key 20 (PBytes [x41])
                (snd (setex alice_key 10 (PBytes tok123) c)))) !! alice_key
  = Some (21%float, [x41]).
Proof.
  intros c.
  exact (proj2 (proj2 (setex_overwrites alice_key 10 20 (PBytes tok123)
                         (PBytes [x41]) tok123 [x41] c eq_refl eq_refl))).
Defined.

Lemma get_after_setex_sound_witness :
  exists f, float_of_int 1200 = Some f
            /\ (ticking 1 0 + f <? ticking 1 1)%float = false.
Proof.
  exact (proj2 (get_after_setex_sound alice_key 1200 (PBytes tok123) tok123
                  (memory ∅ (ticking 1)) eq_refl eq_refl)).
Defined.

(** A surrogate in the value; a TTL of 2{^1024}. *)
Lemma setex_raises_on_surrogates_witness :
  let c := memory ∅ (ticking 1) in
  setex alice_key 1200 (PStr [0xD800]) c = (Raise UnicodeEncodeError, c)
  /\ fst (setex alice_key (2 ^ 1024) (PBytes tok123) c) = Raise OverflowError.
Proof.
  intros c.
  assert (forall cp : N, cp ∈ [0xD800] -> cp < 0x110000) as Hcp.
  { intros cp Hcp. apply list_elem_of_singleton in Hcp as ->. reflexivity. }
  split.
  - exact (proj1 (setex_raises_on_surrogates alice_key 1200 [0xD800] [] c Hcp)).
  - pose proof (proj2 (setex_raises_on_surrogates alice_key (2 ^ 1024)
                         [0xD800] tok123 c Hcp)) as Hw.
    exact (proj1 Hw).
Defined.

Lemma get_access_token_second_call_witness :
  let w := empty_world 1 token_response in
  let w1 := snd (get_access_token alice false w) in
  fst (get_access_token alice false w1) = Ok (PStr (pystr "tok123"))
  /\ sent (snd (get_access_token alice false w1)) = sent w1.
Proof.
  intros w w1.
  refine (proj1 (proj2 (get_access_token_second_call alice false w
           (after_lookup w alice_key (cache w)) alice_key (pystr "tok123")
           tok123 1200%float _ eq_refl eq_refl eq_refl eq_refl)) eq_refl).
  exists alice_key, None, (cache w). repeat split; try reflexivity. by left.
Defined.

Lemma get_access_token_other_manager_misses_witness :
  let w := empty_world 1 token_response in
  let w1 := snd (get_access_token alice true w) in
  misses bob false w1 (after_lookup w1 bob_key (cache w1)).
Proof.
  intros w w1.
  apply (get_access_token_other_manager_misses alice bob true w w alice_key
           bob_key (PStr (pystr "tok123"))); try reflexivity.
  discriminate.
Defined.

Lemma get_access_token_transport_failure_witness :
  fst (get_access_token alice true offline_world)
  = Raise (SkribbleAuthError
             (pystr "Failed to call Skribble login endpoint: timed out")).
Proof.
  rewrite (get_access_token_transport_failure alice true offline_world
             offline_world (pystr "timed out") eq_refl eq_refl).
  reflexivity.
Defined.

Lemma get_access_token_unparsable_json_witness :
  fst (get_access_token alice true (empty_world 1 html_response))
  = Raise JSONDecodeError.
Proof.
  rewrite (get_access_token_unparsable_json alice true
             (empty_world 1 html_response) (empty_world 1 html_response)
             html_response eq_refl eq_refl eq_refl eq_refl eq_refl).
  reflexivity.
Defined.

Lemma get_access_token_json_not_object_witness :
  fst (get_access_token alice true
         (empty_world 1 (json_response 502 (PList []))))
  = Raise (AttributeError "list" "get").
Proof.
  rewrite (get_access_token_json_not_object alice true
             (empty_world 1 (json_response 502 (PList [])))
             (empty_world 1 (json_response 502 (PList [])))
             (json_response 502 (PList [])) (PList []) eq_refl eq_refl).
  - reflexivity.
  - left. discriminate.
  - reflexivity.
  - discriminate.
Defined.

Lemma get_access_token_undecodable_cache_witness :
  let w := world (memory {[ alice_key := (100%float, [xff]) ]} (ticking 1))
                 token_response in
  fst (get_access_token alice false w) = Raise UnicodeDecodeError
  /\ sent (snd (get_access_token alice false w)) = [].
Proof.
  intros w.
  rewrite (get_access_token_undecodable_cache alice w alice_key [xff]
             (snd (get alice_key (cache w)))); try reflexivity.
  - split; reflexivity.
  - discriminate.
Defined.

Lemma get_access_token_backend_failure_witness :
  fst (get_access_token (H0 := Unreachable_TokenCache) alice false
         unreachable_world)
  = Raise (BackendError (pystr "connection refused")).
Proof.
  destruct (get_access_token_backend_failure (H0 := Unreachable_TokenCache)
              alice alice_key (BackendError (pystr "connection refused"))
              eq_refl) as [Hget _].
  rewrite (Hget unreachable_world unreachable eq_refl). reflexivity.
Defined.

Lemma login_plain_text_token_witness :
  login_outcome (Responded plain_response) = Ok (PStr (pystr "raw-token")).
Proof.
  destruct (login_plain_text_token plain_response eq_refl eq_refl)
    as [Htoken _].
  apply Htoken. discriminate.
Defined.



Lemma add_signer_requires_identification_witness :
  SignatureRequestsClient.add_signer (pystr "sr-1") (PStr []) PNone ∅
  = SkribbleError SignatureRequestsClient.AT_LEAST_ONE_MESSAGE.
Proof.
  exact (add_signer_requires_identification (pystr "sr-1") (PStr []) PNone ∅
           eq_refl eq_refl).
Defined.

Lemma two_id_paths_injective_witness :
  call_path (SignatureRequestsClient.remove_signer (pystr "sr-1") (pystr "7"))
  <> call_path (SignatureRequestsClient.remove_attachment (pystr "sr-1")
                  (pystr "7")).
Proof.
  refine (proj2 (proj2 (two_id_paths_injective (pystr "sr-1") (pystr "sr-1")
                          (pystr "7") (pystr "7") _ _)));
    unfold slash_free; decide_by_compute.
Defined.

Lemma wrapper_outcome_witness :
  MonitoringClient.create_signature_request_with_callbacks
    (PStr (pystr "Contract")) (PStr (pystr "JVBERi0=")) (PList []) (PList [])
    {[ pystr "file_url" := PStr (pystr "https://example.org/a.pdf") ]}
  = SkribbleError SignatureRequestsClient.EXACTLY_ONE_MESSAGE.
Proof.
  exact (wrapper_outcome (PStr (pystr "Contract")) (PStr (pystr "JVBERi0="))
           (PList []) (PList [])
           {[ pystr "file_url" := PStr (pystr "https://example.org/a.pdf") ]}
           eq_refl).
Defined.
